(** * Pattern storage for learned creator styles

    A shallow embedding of [linkedin_agent/storage/patterns.py]: the class
    [PatternStore], which keeps one JSON document on disk and merges newly
    extracted patterns into it.

    Python values are embedded as the type [value]; the backing file and the
    wall clock form the explicit [world] every method runs in; a Python
    exception is the [Raise] outcome of a method. *)

From Stdlib Require Import List String Ascii ZArith Bool Arith Lia.
From Stdlib Require Import Permutation DecimalString.
Import ListNotations.
Local Open Scope string_scope.
Local Open Scope list_scope.

Module PatternStore.

(** ** Python values

    The values [json.load] produces and [json.dump] accepts: [None], [bool],
    [int], [str], [list] and [dict] with [str] keys.  Floating-point numbers
    are left out of the embedding.  A [str] is a Rocq [string], one [ascii]
    per character.  A [dict] keeps its items in insertion order, as Python's
    does. *)

Unset Elimination Schemes.
Inductive value : Type :=
| VNone
| VBool (b : bool)
| VInt (n : Z)
| VStr (s : string)
| VList (items : list value)
| VDict (fields : list (string * value)).
Set Elimination Schemes.

Definition dict : Type := list (string * value).

(** Exceptions raised by the modelled code paths. *)
Inductive exn : Type := TypeError | AttributeError | KeyError | JSONDecodeError.

Inductive outcome (A : Type) : Type :=
| Ok (a : A)
| Raise (e : exn).
Arguments Ok {A} a.
Arguments Raise {A} e.

Definition obind {A B} (c : outcome A) (k : A -> outcome B) : outcome B :=
  match c with
  | Ok a => k a
  | Raise e => Raise e
  end.

Declare Scope outcome_scope.
Delimit Scope outcome_scope with outcome.
Notation "x <-- c ;; k" := (obind c (fun x => k))
  (at level 61, c at next level, right associativity) : outcome_scope.

(** *** Dictionaries *)

(** [d.get(k)] *)
Fixpoint dict_get {A} (k : string) (d : list (string * A)) : option A :=
  match d with
  | [] => None
  | (k', v) :: rest => if String.eqb k k' then Some v else dict_get k rest
  end.

(** [k in d] *)
Definition dict_has {A} (k : string) (d : list (string * A)) : bool :=
  match dict_get k d with
  | Some _ => true
  | None => false
  end.

(** [d[k] = v]: an existing key keeps its position, a new key goes last. *)
Fixpoint dict_set {A} (k : string) (v : A) (d : list (string * A))
  : list (string * A) :=
  match d with
  | [] => [(k, v)]
  | (k', v') :: rest =>
      if String.eqb k k' then (k', v) :: rest else (k', v') :: dict_set k v rest
  end.

(** [d.update(inc)] *)
Definition dict_update {A} (d inc : list (string * A)) : list (string * A) :=
  fold_left (fun acc kv => dict_set (fst kv) (snd kv) acc) inc d.

(** [d.get(k, default)] *)
Definition dict_get_default (k : string) (default : value) (d : dict) : value :=
  match dict_get k d with
  | Some v => v
  | None => default
  end.

(** *** Equality, hashing, truth *)

(** [a == b].  [bool] is a subtype of [int]: [True == 1].  Two lists are
    equal item by item; two dicts when they have as many keys and every key
    of the first maps to an equal value in the second. *)
Fixpoint py_eq (a b : value) {struct a} : bool :=
  match a, b with
  | VNone, VNone => true
  | VBool x, VBool y => Bool.eqb x y
  | VBool x, VInt n => Z.eqb (Z.b2z x) n
  | VInt n, VBool y => Z.eqb n (Z.b2z y)
  | VInt n, VInt m => Z.eqb n m
  | VStr s, VStr t => String.eqb s t
  | VList l, VList m =>
      (fix items_eq (l m : list value) {struct l} : bool :=
         match l, m with
         | [], [] => true
         | x :: l', y :: m' => py_eq x y && items_eq l' m'
         | _, _ => false
         end) l m
  | VDict d, VDict e =>
      Nat.eqb (List.length d) (List.length e)
      && forallb (fun kv => match dict_get (fst kv) e with
                            | Some v' => py_eq (snd kv) v'
                            | None => false
                            end) d
  | _, _ => false
  end.

(** Values that can be put in a [set]: lists and dicts are unhashable. *)
Definition hashable (v : value) : bool :=
  match v with
  | VList _ | VDict _ => false
  | _ => true
  end.

(** [bool(v)] *)
Definition truthy (v : value) : bool :=
  match v with
  | VNone => false
  | VBool b => b
  | VInt n => negb (Z.eqb n 0)
  | VStr s => negb (String.eqb s "")
  | VList l => match l with [] => false | _ => true end
  | VDict d => match d with [] => false | _ => true end
  end.

Definition is_list (v : value) : bool :=
  match v with VList _ => true | _ => false end.
Definition is_dict (v : value) : bool :=
  match v with VDict _ => true | _ => false end.

(** Every dict inside the value has each key once. *)
Fixpoint wf_value (v : value) : bool :=
  match v with
  | VList l => forallb wf_value l
  | VDict d =>
      (fix wf_fields (d : dict) : bool :=
         match d with
         | [] => true
         | (k, x) :: rest =>
             negb (dict_has k rest) && wf_value x && wf_fields rest
         end) d
  | _ => true
  end.

(** *** Sets of hashable values

    A set is kept as the list of its members in insertion order; membership
    goes through [==]. *)
Definition set_mem (k : value) (s : list value) : bool := existsb (py_eq k) s.

Definition set_add (s : list value) (k : value) : list value :=
  if set_mem k s then s else s ++ [k].

(** [set(l)] *)
Definition py_set (l : list value) : list value := fold_left set_add l [].

(** *** Operators on containers *)

(** [t in s] on strings *)
Fixpoint is_substring (t s : string) : bool :=
  String.prefix t s
  || match s with
     | EmptyString => false
     | String _ s' => is_substring t s'
     end.

(** [item in container] *)
Definition py_in (item container : value) : outcome bool :=
  match container with
  | VList l => Ok (existsb (py_eq item) l)
  | VStr s =>
      match item with
      | VStr t => Ok (is_substring t s)
      | _ => Raise TypeError
      end
  | VDict d =>
      if hashable item
      then Ok (match item with VStr k => dict_has k d | _ => false end)
      else Raise TypeError
  | _ => Raise TypeError
  end.

(** [container[key]] with a [str] key *)
Definition py_getitem (container : value) (key : string) : outcome value :=
  match container with
  | VDict d =>
      match dict_get key d with
      | Some v => Ok v
      | None => Raise KeyError
      end
  | _ => Raise TypeError
  end.

(** [container[key] = v] with a [str] key; the container after the store *)
Definition py_setitem (container : value) (key : string) (v : value)
  : outcome value :=
  match container with
  | VDict d => Ok (VDict (dict_set key v d))
  | _ => Raise TypeError
  end.

(** [existing.append(item)]; the list after the call *)
Definition py_append (existing item : value) : outcome value :=
  match existing with
  | VList l => Ok (VList (l ++ [item]))
  | _ => Raise AttributeError
  end.

(** [target.update(inc)] with a dict argument; the target after the call *)
Definition py_update (target : value) (inc : dict) : outcome value :=
  match target with
  | VDict d => Ok (VDict (dict_update d inc))
  | _ => Raise AttributeError
  end.

(** [len(v)] *)
Definition py_len (v : value) : outcome nat :=
  match v with
  | VList l => Ok (List.length l)
  | VDict d => Ok (List.length d)
  | VStr s => Ok (String.length s)
  | _ => Raise TypeError
  end.

(** [a + b] where [b] is a list *)
Definition py_add_list (a : value) (b : list value) : outcome (list value) :=
  match a with
  | VList l => Ok (l ++ b)
  | _ => Raise TypeError
  end.

(** *** Rendering *)

(** [str(n)] for a length *)
Definition str_of_nat (n : nat) : string :=
  NilZero.string_of_uint (Nat.to_uint n).

(** [str(n)] for an [int] *)
Definition str_of_Z (n : Z) : string :=
  NilZero.string_of_int (Z.to_int n).

(** The line break between the lines of the summary *)
Definition newline : string := String (ascii_of_nat 10) EmptyString.

(** [sep.join(items)] once every item is known to be a [str] *)
Fixpoint join (sep : string) (items : list string) : string :=
  match items with
  | [] => ""
  | [s] => s
  | s :: rest => String.append s (String.append sep (join sep rest))
  end.

(** The items of a list, each of which must be a [str] ([str.join] raises
    [TypeError] on anything else). *)
Fixpoint str_items (items : list value) : outcome (list string) :=
  match items with
  | [] => Ok []
  | VStr s :: rest => (ss <-- str_items rest ;; Ok (s :: ss))%outcome
  | _ :: _ => Raise TypeError
  end.

(** The characters of a [str], each as a [str] of length one. *)
Fixpoint chars (s : string) : list string :=
  match s with
  | EmptyString => []
  | String c rest => String c EmptyString :: chars rest
  end.

(** [', '.join(v[:5])].  Slicing a dict raises ([TypeError] before Python
    3.12, [KeyError] from 3.12 on); it is [TypeError] here. *)
Definition join_first5 (v : value) : outcome string :=
  match v with
  | VList l => (ss <-- str_items (firstn 5 l) ;; Ok (join ", " ss))%outcome
  | VStr s => Ok (join ", " (firstn 5 (chars s)))
  | _ => Raise TypeError
  end.

(** ** The world: the backing file and the clock

    The file at [storage_path] is missing, holds a well-formed JSON document,
    or holds text [json.load] rejects.  [ticks] counts the readings of
    [datetime.now()] taken so far. *)

Inductive content : Type :=
| Document (v : value)
| Garbage (raw : string).

Record world : Type := mkWorld { file : option content; ticks : nat }.

(** A method of the store: it runs in a world, returns or raises, and leaves
    a world behind in either case. *)
Definition M (A : Type) : Type := world -> outcome A * world.

Definition ret {A} (a : A) : M A := fun w => (Ok a, w).

Definition bind {A B} (c : M A) (k : A -> M B) : M B :=
  fun w =>
    match c w with
    | (Ok a, w') => k a w'
    | (Raise e, w') => (Raise e, w')
    end.

Definition lift {A} (c : outcome A) : M A := fun w => (c, w).

Declare Scope store_scope.
Delimit Scope store_scope with store.
Notation "x <- c ;; k" := (bind c (fun x => k))
  (at level 61, c at next level, right associativity) : store_scope.

(** [open(path, "w")] followed by [json.dump(v, f, indent=2)] *)
Definition write_json (v : value) : M unit :=
  fun w => (Ok tt, mkWorld (Some (Document v)) (ticks w)).

Section Methods.

(** [stamp n] is the text of the [n]-th reading of
    [datetime.now().isoformat()]. *)
Variable stamp : nat -> string.

(** [set_iter n s] is the order in which [list(...)] walks the set [s] when
    it is built after [n] clock readings; the interpreter fixes it. *)
Variable set_iter : nat -> list value -> list value.

(** [format_container v] is [str(v)] for a list or a dict. *)
Variable format_container : value -> string.

(** [datetime.now().isoformat()] *)
Definition now : M string :=
  fun w => (Ok (stamp (ticks w)), mkWorld (file w) (S (ticks w))).

(** [list(s)] for a set [s] *)
Definition list_of_set (s : list value) : M (list value) :=
  fun w => (Ok (set_iter (ticks w) s), w).

(** [str(v)], as an f-string renders [v] *)
Definition py_str (v : value) : string :=
  match v with
  | VNone => "None"
  | VBool true => "True"
  | VBool false => "False"
  | VInt n => str_of_Z n
  | VStr s => s
  | _ => format_container v
  end.

(** [_empty_patterns] *)
Definition _empty_patterns : M dict :=
  (created <- now ;;
   updated <- now ;;
   ret [("version", VStr "1.0");
        ("created_at", VStr created);
        ("updated_at", VStr updated);
        ("sources", VList []);
        ("patterns", VDict [])])%store.

(** [load] *)
Definition load : M value :=
  fun w =>
    match file w with
    | None => (scaffold <- _empty_patterns ;; ret (VDict scaffold))%store w
    | Some (Document v) => (Ok v, w)
    | Some (Garbage _) => (Raise JSONDecodeError, w)
    end.

(** [save]; it stamps the dict it is given, and the stamped dict is its
    result here *)
Definition save (patterns : dict) : M dict :=
  (t <- now ;;
   let patterns := dict_set "updated_at" (VStr t) patterns in
   _ <- write_json (VDict patterns) ;;
   ret patterns)%store.

(** The set comprehension of [_merge_lists]:
    [{item.get("example") for item in existing if isinstance(item, dict)}] *)
Definition example_of (item : dict) : value :=
  dict_get_default "example" VNone item.

Fixpoint seen_keys (items : list value) (seen : list value)
  : outcome (list value) :=
  match items with
  | [] => Ok seen
  | VDict d :: rest =>
      if hashable (example_of d)
      then seen_keys rest (set_add seen (example_of d))
      else Raise TypeError
  | _ :: rest => seen_keys rest seen
  end.

(** Iterating a [str] yields one-character strings and iterating a [dict]
    yields its keys: no item is a dict and the set stays empty. *)
Definition initial_seen (existing : value) : outcome (list value) :=
  match existing with
  | VList l => seen_keys l []
  | VStr _ | VDict _ => Ok []
  | _ => Raise TypeError
  end.

(** The loop [for item in new] of [_merge_lists] *)
Fixpoint merge_loop (existing : value) (seen : list value) (new : list value)
  : outcome value :=
  match new with
  | [] => Ok existing
  | item :: rest =>
      match item with
      | VDict d =>
          if hashable (example_of d) then
            if negb (set_mem (example_of d) seen) then
              (existing <-- py_append existing item ;;
               merge_loop existing (set_add seen (example_of d)) rest)%outcome
            else merge_loop existing seen rest
          else Raise TypeError
      | _ =>
          (found <-- py_in item existing ;;
           if negb found then
             (existing <-- py_append existing item ;;
              merge_loop existing seen rest)
           else merge_loop existing seen rest)%outcome
      end
  end.

(** [_merge_lists] *)
Definition _merge_lists (existing : value) (new : list value) : outcome value :=
  (seen <-- initial_seen existing ;;
   merge_loop existing seen new)%outcome.

(** One turn of the loop [for key, value in new_patterns.items()] of
    [update], on [current["patterns"]] *)
Definition update_item (patterns : value) (key : string) (val : value)
  : outcome value :=
  (present <-- py_in (VStr key) patterns ;;
   match present, val with
   | true, VList new =>
       existing <-- py_getitem patterns key ;;
       merged <-- _merge_lists existing new ;;
       py_setitem patterns key merged
   | true, VDict inc =>
       target <-- py_getitem patterns key ;;
       target <-- py_update target inc ;;
       py_setitem patterns key target
   | _, _ => py_setitem patterns key val
   end)%outcome.

Fixpoint update_items (patterns : value) (items : dict) : outcome value :=
  match items with
  | [] => Ok patterns
  | (key, val) :: rest =>
      (patterns <-- update_item patterns key val ;;
       update_items patterns rest)%outcome
  end.

(** [update] *)
Definition update (new_patterns : dict) (sources : list string) : M dict :=
  (current <- load ;;
   t <- now ;;
   current <- lift (py_setitem current "updated_at" (VStr t)) ;;
   match current with
   | VDict current =>
       all <- lift (py_add_list (dict_get_default "sources" (VList []) current)
                                (map VStr sources)) ;;
       if forallb hashable all then
         merged <- list_of_set (py_set all) ;;
         let current := dict_set "sources" (VList merged) current in
         let current :=
           if negb (dict_has "patterns" current)
           then dict_set "patterns" (VDict []) current
           else current in
         patterns <- lift (update_items
                             (dict_get_default "patterns" VNone current)
                             new_patterns) ;;
         let current := dict_set "patterns" patterns current in
         save current
       else lift (Raise TypeError)
   | _ => lift (Raise TypeError)
   end)%store.

(** [clear] *)
Definition clear : M unit :=
  (scaffold <- _empty_patterns ;;
   _ <- save scaffold ;;
   ret tt)%store.

(** The line of [get_summary] for one known category, when it is present *)
Definition summary_line (p : value) (name : string)
           (render : value -> outcome string) : outcome (list string) :=
  (present <-- py_in (VStr name) p ;;
   if present then
     (v <-- py_getitem p name ;;
      line <-- render v ;;
      Ok [line])
   else Ok [])%outcome.

(** [d.get(k, 'N/A')] on a category value *)
Definition attribute (k : string) (v : value) : outcome value :=
  match v with
  | VDict d => Ok (dict_get_default k (VStr "N/A") d)
  | _ => Raise AttributeError
  end.

Definition hooks_line (v : value) : outcome string :=
  (n <-- py_len v ;;
   Ok (String.append "Hooks: " (String.append (str_of_nat n) " patterns")))%outcome.

Definition structure_line (v : value) : outcome string :=
  (a <-- attribute "avg_length" v ;;
   Ok (String.append "Avg length: " (String.append (py_str a) " words")))%outcome.

Definition tone_line (v : value) : outcome string :=
  (a <-- attribute "formality" v ;;
   Ok (String.append "Tone: " (py_str a)))%outcome.

Definition ctas_line (v : value) : outcome string :=
  (n <-- py_len v ;;
   Ok (String.append "CTAs: " (String.append (str_of_nat n) " patterns")))%outcome.

Definition topics_line (v : value) : outcome string :=
  (t <-- join_first5 v ;;
   Ok (String.append "Topics: " t))%outcome.

(** The three opening lines of the digest *)
Definition summary_header (collection : dict) : outcome (list string) :=
  (n <-- py_len (dict_get_default "sources" (VList []) collection) ;;
   Ok [String.append "Sources: "
         (String.append (str_of_nat n) " posts analyzed");
       String.append "Last updated: "
         (py_str (dict_get_default "updated_at" (VStr "Never") collection));
       ""])%outcome.

(** The body of [get_summary] on the loaded collection *)
Definition summarize (patterns : value) : outcome (option string) :=
  match patterns with
  | VDict collection =>
      if negb (truthy (dict_get_default "patterns" VNone collection))
      then Ok None
      else
        let p := dict_get_default "patterns" VNone collection in
        (header <-- summary_header collection ;;
         hooks <-- summary_line p "hooks" hooks_line ;;
         structure <-- summary_line p "structure" structure_line ;;
         tone <-- summary_line p "tone" tone_line ;;
         ctas <-- summary_line p "ctas" ctas_line ;;
         topics <-- summary_line p "topics" topics_line ;;
         Ok (Some (join newline
                     (header ++ hooks ++ structure ++ tone ++ ctas
                        ++ topics))))%outcome
  | _ => Raise AttributeError
  end.

(** [get_summary] *)
Definition get_summary : M (option string) :=
  (patterns <- load ;;
   lift (summarize patterns))%store.

(** ** Notions used in the statements *)

(** The class of a hashable value under [==]: [True] and [1] are one
    member of a set, [False] and [0] another. *)
Definition hash_class (v : value) : value :=
  match v with
  | VBool b => VInt (Z.b2z b)
  | _ => v
  end.

(** [d] has each key once, as a Python dict does. *)
Fixpoint unique_keys {A} (d : list (string * A)) : bool :=
  match d with
  | [] => true
  | (k, _) :: rest => negb (dict_has k rest) && unique_keys rest
  end.

(** The identity keys of the dict entries of a sequence, in order. *)
Fixpoint entry_keys (items : list value) : list value :=
  match items with
  | [] => []
  | VDict d :: rest => example_of d :: entry_keys rest
  | _ :: rest => entry_keys rest
  end.

(** No key is [==] to a later one. *)
Fixpoint distinct (ks : list value) : bool :=
  match ks with
  | [] => true
  | k :: rest => negb (set_mem k rest) && distinct rest
  end.

(** The dict entries that carry no [example] field. *)
Definition keyless (items : list value) : list value :=
  filter (fun item => match item with
                      | VDict d => negb (dict_has "example" d)
                      | _ => false
                      end) items.

(** The value one turn of the loop of [update] gives a category whose
    stored value is [stored] ([None] for a new category); lemma
    [update_item_dict] relates it to [update_item]. *)
Definition category_merge (stored : option value) (incoming : value)
  : outcome value :=
  match stored, incoming with
  | Some existing, VList new => _merge_lists existing new
  | Some target, VDict inc => py_update target inc
  | _, _ => Ok incoming
  end.

(** The classes of the members of a set. *)
Definition classes (s : list value) : list value := map hash_class s.

(** What the loop leaves an incoming item as: a dict entry has its key in
    the seen set, another item is found in the list. *)
Definition settled (l seen : list value) (item : value) : Prop :=
  match item with
  | VDict d =>
      hashable (example_of d) = true
      /\ In (hash_class (example_of d)) (classes seen)
  | _ => existsb (py_eq item) l = true
  end.


(** *** The digest as the design describes it

    A second reading of the summary, by the shapes the digest expects: a
    sequence for hooks and CTAs, a dict for structure and tone, a sequence
    of strings for topics.  [summary_as_designed] compares it with
    [get_summary]. *)

Definition known_categories : list string :=
  ["hooks"; "structure"; "tone"; "ctas"; "topics"].

Definition count_metric (label : string) (v : value) : option string :=
  match v with
  | VList l =>
      Some (String.append label
              (String.append (str_of_nat (List.length l)) " patterns"))
  | _ => None
  end.

Definition attribute_metric (label key suffix : string) (v : value)
  : option string :=
  match v with
  | VDict d =>
      Some (String.append label
              (String.append (py_str (dict_get_default key (VStr "N/A") d))
                 suffix))
  | _ => None
  end.

Definition topics_metric (v : value) : option string :=
  match v with
  | VList l =>
      match str_items (firstn 5 l) with
      | Ok ss => Some (String.append "Topics: " (join ", " ss))
      | Raise _ => None
      end
  | _ => None
  end.

(** No line for an absent category, one line for a present one. *)
Definition metric_lines (p : dict) (name : string)
           (metric : value -> option string) : option (list string) :=
  match dict_get name p with
  | None => Some []
  | Some v =>
      match metric v with
      | Some line => Some [line]
      | None => None
      end
  end.

Definition digest (collection p : dict) : option string :=
  match dict_get_default "sources" (VList []) collection with
  | VList sources =>
      match metric_lines p "hooks" (count_metric "Hooks: "),
            metric_lines p "structure"
              (attribute_metric "Avg length: " "avg_length" " words"),
            metric_lines p "tone" (attribute_metric "Tone: " "formality" ""),
            metric_lines p "ctas" (count_metric "CTAs: "),
            metric_lines p "topics" topics_metric
      with
      | Some hooks, Some structure, Some tone, Some ctas, Some topics =>
          Some (join newline
                  ([String.append "Sources: "
                      (String.append (str_of_nat (List.length sources))
                         " posts analyzed");
                    String.append "Last updated: "
                      (py_str (dict_get_default "updated_at" (VStr "Never")
                                 collection));
                    ""]
                   ++ hooks ++ structure ++ tone ++ ctas ++ topics))
      | _, _, _, _, _ => None
      end
  | _ => None
  end.

(** ** Inputs of the worked examples *)

(** [{"example": e}] *)
Definition entry (e : string) : value := VDict [("example", VStr e)].

(** A store whose backing file does not exist yet, after [n] clock
    readings. *)
Definition fresh (n : nat) : world := mkWorld None n.

(** A collection with its five root fields, and a store whose backing file
    holds one. *)
Definition collection (created updated : string) (sources : list value)
           (patterns : dict) : dict :=
  [("version", VStr "1.0");
   ("created_at", VStr created);
   ("updated_at", VStr updated);
   ("sources", VList sources);
   ("patterns", VDict patterns)].

Definition holding (c : dict) (n : nat) : world :=
  mkWorld (Some (Document (VDict c))) n.

(** Oracles of the closed runs: a clock that reads the same instant every
    time, a set walked in insertion order, containers rendered as nothing. *)
Definition frozen_clock (n : nat) : string := "2025-01-01T00:00:00".
Definition insertion_order (n : nat) (s : list value) : list value := s.
Definition no_render (v : value) : string := "".

End Methods.

(** * Python's [str] methods

    Characters are the code points below U+0100, one [ascii] each; the
    tables below are those of Python 3 on that range. *)

(** [c.isspace()]: TAB to CR, FS to US, SPACE, NEL, NBSP *)
Definition is_space (c : ascii) : bool :=
  let n := nat_of_ascii c in
  (((9 <=? n) && (n <=? 13)) || ((28 <=? n) && (n <=? 32))
   || (n =? 133) || (n =? 160))%nat.

(** [c.lower()]: [A]-[Z] and the capital letters of U+00C0 to U+00DE
    (U+00D7, the multiplication sign, is not one) move up by 32 *)
Definition lower_char (c : ascii) : ascii :=
  let n := nat_of_ascii c in
  if (((65 <=? n) && (n <=? 90))
      || ((192 <=? n) && (n <=? 222) && negb (n =? 215)))%nat
  then ascii_of_nat (n + 32)
  else c.

(** [s.lower()] *)
Fixpoint lower (s : string) : string :=
  match s with
  | EmptyString => EmptyString
  | String c rest => String (lower_char c) (lower rest)
  end.

(** [s.replace(a, b)] for one-character [a] and [b] *)
Fixpoint replace_char (a b : ascii) (s : string) : string :=
  match s with
  | EmptyString => EmptyString
  | String c rest =>
      String (if Ascii.eqb c a then b else c) (replace_char a b rest)
  end.

(** [s[:n]] *)
Fixpoint take (n : nat) (s : string) : string :=
  match n, s with
  | S n', String c rest => String c (take n' rest)
  | _, _ => EmptyString
  end.

(** [s.split()]: the maximal runs of characters that are not whitespace;
    [word] is the run being read. *)
Fixpoint words_from (word : string) (s : string) : list string :=
  match s with
  | EmptyString =>
      match word with
      | EmptyString => []
      | _ => [word]
      end
  | String c rest =>
      if is_space c then
        match word with
        | EmptyString => words_from EmptyString rest
        | _ => word :: words_from EmptyString rest
        end
      else words_from (String.append word (String c EmptyString)) rest
  end.

Definition split_whitespace (s : string) : list string :=
  words_from EmptyString s.

(** [s.split(sep)] for a one-character [sep]; [piece] is the piece being
    read. *)
Fixpoint pieces_from (sep : ascii) (piece : string) (s : string)
  : list string :=
  match s with
  | EmptyString => [piece]
  | String c rest =>
      if Ascii.eqb c sep
      then piece :: pieces_from sep EmptyString rest
      else pieces_from sep (String.append piece (String c EmptyString)) rest
  end.

Definition split_on (sep : ascii) (s : string) : list string :=
  pieces_from sep EmptyString s.

(** [s.lstrip()], [s.rstrip()], [s.strip()] *)
Fixpoint lstrip (s : string) : string :=
  match s with
  | EmptyString => EmptyString
  | String c rest => if is_space c then lstrip rest else s
  end.

Fixpoint rstrip (s : string) : string :=
  match s with
  | EmptyString => EmptyString
  | String c rest =>
      match rstrip rest with
      | EmptyString => if is_space c then EmptyString else String c EmptyString
      | kept => String c kept
      end
  end.

Definition strip (s : string) : string := rstrip (lstrip s).

(** [bool(title)] for an optional [str]: [None] and [""] are false *)
Definition given (title : option string) : option string :=
  match title with
  | Some EmptyString => None
  | other => other
  end.

(** How many times [c] occurs in [s]. *)
Fixpoint count_char (c : ascii) (s : string) : nat :=
  match s with
  | EmptyString => 0
  | String x rest => (if Ascii.eqb x c then 1 else 0) + count_char c rest
  end.

(** [s] consists of whitespace only. *)
Fixpoint all_space (s : string) : bool :=
  match s with
  | EmptyString => true
  | String c rest => is_space c && all_space rest
  end.

(** [s] without its whitespace characters. *)
Fixpoint drop_space (s : string) : string :=
  match s with
  | EmptyString => EmptyString
  | String c rest =>
      if is_space c then drop_space rest else String c (drop_space rest)
  end.

(** * The pattern tools of [linkedin_agent/tools/post_writer.py]

    [save_patterns] and [load_patterns] read and write the same backing
    file as [PatternStore] (both default to [patterns/patterns.json]).
    [path] is the text [str(Path(storage_path))] that the messages quote. *)

Module PostWriter.

Section Tools.

Variable stamp : nat -> string.

(** [existing = {}], replaced by [json.load(f)] when the path exists *)
Definition existing_document : M value :=
  fun w =>
    match file w with
    | None => (Ok (VDict []), w)
    | Some (Document v) => (Ok v, w)
    | Some (Garbage _) => (Raise JSONDecodeError, w)
    end.

(** [save_patterns] *)
Definition save_patterns (path : string) (patterns : dict) : M dict :=
  (existing <- existing_document ;;
   t <- now stamp ;;
   existing <- lift (py_setitem existing "updated_at" (VStr t)) ;;
   present <- lift (py_in (VStr "patterns") existing) ;;
   existing <- lift (if negb present
                     then py_setitem existing "patterns" (VDict [])
                     else Ok existing) ;;
   target <- lift (py_getitem existing "patterns") ;;
   target <- lift (py_update target patterns) ;;
   existing <- lift (py_setitem existing "patterns" target) ;;
   _ <- write_json existing ;;
   ret [("success", VBool true);
        ("file_path", VStr path);
        ("message", VStr (String.append "Patterns saved to " path))])%store.

(** [data.get(k, default)] on whatever [json.load] returned *)
Definition py_get (data : value) (k : string) (default : value)
  : outcome value :=
  match data with
  | VDict d => Ok (dict_get_default k default d)
  | _ => Raise AttributeError
  end.

(** [load_patterns] *)
Definition load_patterns (path : string) : M dict :=
  fun w =>
    match file w with
    | None =>
        (Ok [("success", VBool false);
             ("patterns", VNone);
             ("message",
              VStr (String.append "No patterns found at "
                      (String.append path
                         ". Run 'learn' first to analyze creator posts.")))],
         w)
    | Some (Garbage _) => (Raise JSONDecodeError, w)
    | Some (Document data) =>
        lift (patterns <-- py_get data "patterns" (VDict []) ;;
              if negb (truthy patterns) then
                Ok [("success", VBool false);
                    ("patterns", VNone);
                    ("message",
                     VStr "Patterns file exists but is empty. Run 'learn' to extract patterns.")]
              else
                updated <-- py_get data "updated_at" VNone ;;
                Ok [("success", VBool true);
                    ("patterns", patterns);
                    ("updated_at", updated);
                    ("message",
                     VStr (String.append "Loaded patterns from " path))])%outcome
          w
    end.

End Tools.

(** [write_post]: the values it computes before it touches the output
    directory. *)

(** [len(content.split())] *)
Definition word_count (content : string) : nat :=
  List.length (split_whitespace content).

(** [title.lower().replace(" ", "_")[:30] if title else "post"] *)
Definition slug (title : option string) : string :=
  match given title with
  | Some t => take 30 (replace_char " " "_" (lower t))
  | None => "post"
  end.

(** [f"{slug}_{timestamp}.md"], for the [strftime] text [timestamp] *)
Definition filename (title : option string) (timestamp : string) : string :=
  String.append (slug title)
    (String.append "_" (String.append timestamp ".md")).

End PostWriter.

(** * [linkedin_agent/tools/code_formatter.py] *)

Module CodeFormatter.

(** [format_code_snippet]: the dict it returns.  [file_path] is the text of
    [output_path / filename], where [formatted] is written. *)
Definition format_code_snippet (file_path : string) (code language : string)
           (title : option string) : dict :=
  let code := strip code in
  let fence := "```" in
  let formatted :=
    String.append fence
      (String.append language
         (String.append newline
            (String.append code (String.append newline fence)))) in
  let linkedin_text :=
    String.append fence
      (String.append newline
         (String.append code (String.append newline fence))) in
  let formatted :=
    match given title with
    | Some t =>
        String.append "## "
          (String.append t
             (String.append newline (String.append newline formatted)))
    | None => formatted
    end in
  let linkedin_text :=
    match given title with
    | Some t =>
        String.append t
          (String.append newline (String.append newline linkedin_text))
    | None => linkedin_text
    end in
  [("success", VBool true);
   ("file_path", VStr file_path);
   ("formatted", VStr formatted);
   ("linkedin_text", VStr linkedin_text);
   ("language", VStr language);
   ("line_count",
    VInt (Z.of_nat (List.length (split_on (ascii_of_nat 10) code))))].

End CodeFormatter.

(** * [linkedin_agent/hooks/logging_hook.py] *)

Module LoggingHook.

(** What [log_start] shows for one input value: a list of more than five
    items as its size, a string of more than 500 characters cut to 500 and
    followed by three dots, anything else as it is. *)
Definition shown (value : value) : PatternStore.value :=
  match value with
  | VList l =>
      if (5 <? List.length l)%nat
      then VStr (String.append "["
                   (String.append (str_of_nat (List.length l)) " items]"))
      else value
  | VStr s =>
      if (500 <? String.length s)%nat
      then VStr (String.append (take 500 s) "...")
      else value
  | _ => value
  end.

(** The loop of [log_start] that fills [display_input] *)
Definition display_input (tool_input : dict) : dict :=
  fold_left (fun display kv => dict_set (fst kv) (shown (snd kv)) display)
            tool_input [].

End LoggingHook.

(** ** More notions used in the statements *)

(** [s] is [l] with some items left out, the others in their order. *)
Fixpoint subseq {A} (s l : list A) : Prop :=
  match l with
  | [] => s = []
  | y :: l' =>
      subseq s l'
      \/ match s with
         | [] => False
         | x :: s' => x = y /\ subseq s' l'
         end
  end.

(** The root fields [update] writes. *)
Definition update_writes : list string := ["updated_at"; "sources"; "patterns"].

(** A stored value that cannot be iterated: [None], a [bool], an [int]. *)
Definition not_iterable (v : value) : bool :=
  match v with
  | VNone | VBool _ | VInt _ => true
  | _ => false
  end.

(** ** Dictionaries *)

Lemma dict_get_set_eq {A} (k : string) (v : A) d :
  dict_get k (dict_set k v d) = Some v.
Proof.
  induction d as [| [k' v'] d IH]; simpl.
  - now rewrite String.eqb_refl.
  - destruct (String.eqb k k') eqn:E; simpl; rewrite E; auto.
Qed.

Lemma dict_get_set_neq {A} (k k' : string) (v : A) d :
  k <> k' -> dict_get k' (dict_set k v d) = dict_get k' d.
Proof.
  intros N. induction d as [| [k0 v0] d IH]; simpl.
  - destruct (String.eqb k' k) eqn:E; auto.
    apply String.eqb_eq in E. congruence.
  - destruct (String.eqb k k0) eqn:E; simpl.
    + apply String.eqb_eq in E. subst k0.
      destruct (String.eqb k' k) eqn:E'; auto.
      apply String.eqb_eq in E'. congruence.
    + now rewrite IH.
Qed.

Lemma dict_get_set {A} (k k' : string) (v : A) d :
  dict_get k' (dict_set k v d)
  = if String.eqb k k' then Some v else dict_get k' d.
Proof.
  destruct (String.eqb k k') eqn:E.
  - apply String.eqb_eq in E. subst. apply dict_get_set_eq.
  - apply String.eqb_neq in E. now apply dict_get_set_neq.
Qed.

Lemma dict_has_set {A} (k k' : string) (v : A) d :
  dict_has k' (dict_set k v d) = String.eqb k k' || dict_has k' d.
Proof.
  unfold dict_has. rewrite dict_get_set.
  now destruct (String.eqb k k').
Qed.

Lemma dict_get_update {A} (d inc : list (string * A)) (k : string) :
  unique_keys inc = true ->
  dict_get k (dict_update d inc)
  = match dict_get k inc with
    | Some v => Some v
    | None => dict_get k d
    end.
Proof.
  unfold dict_update. revert d.
  induction inc as [| [k0 v0] inc IH]; intros d U; simpl in *.
  - reflexivity.
  - apply andb_prop in U. destruct U as [U0 U].
    rewrite (IH _ U). rewrite dict_get_set.
    destruct (String.eqb k k0) eqn:E.
    + apply String.eqb_eq in E. subst k0.
      unfold dict_has in U0.
      destruct (dict_get k inc); [discriminate U0 |].
      now rewrite String.eqb_refl.
    + destruct (dict_get k inc); auto.
      rewrite String.eqb_sym, E. reflexivity.
Qed.

Lemma dict_get_In {A} (d : list (string * A)) (k : string) (v : A) :
  unique_keys d = true -> In (k, v) d -> dict_get k d = Some v.
Proof.
  induction d as [| [k0 v0] d IH]; simpl; intros U I; [tauto |].
  apply andb_prop in U. destruct U as [U0 U].
  destruct I as [I | I].
  - inversion I; subst. now rewrite String.eqb_refl.
  - specialize (IH U I).
    destruct (String.eqb k k0) eqn:E; auto.
    apply String.eqb_eq in E. subst k0.
    unfold dict_has in U0. rewrite IH in U0. discriminate U0.
Qed.

(** ** Equality of values *)

Lemma value_ind (P : value -> Prop) :
  P VNone -> (forall b, P (VBool b)) -> (forall n, P (VInt n)) ->
  (forall s, P (VStr s)) ->
  (forall l, Forall P l -> P (VList l)) ->
  (forall d, Forall (fun kv => P (snd kv)) d -> P (VDict d)) ->
  forall v, P v.
Proof.
  intros HN HB HI HS HL HD.
  fix IH 1.
  intros [| b | n | s | l | d].
  - exact HN.
  - apply HB.
  - apply HI.
  - apply HS.
  - apply HL. induction l as [| x l IHl]; constructor; [apply IH | exact IHl].
  - apply HD.
    induction d as [| [k x] d IHd]; constructor; [apply IH | exact IHd].
Qed.

Lemma py_eq_class a b :
  hashable a = true -> (py_eq a b = true <-> hash_class a = hash_class b).
Proof.
  destruct a as [| [] | n | s | l | d]; destruct b as [| [] | m | t | l' | d'];
    cbn [py_eq hash_class hashable Z.b2z Bool.eqb]; intros H;
    try discriminate H;
    split; intros E; try discriminate E; try reflexivity;
    rewrite ?Z.eqb_eq, ?String.eqb_eq in *;
    try (inversion E; subst); try congruence; try reflexivity.
Qed.

Lemma hashable_class a : hashable (hash_class a) = hashable a.
Proof. now destruct a. Qed.

Lemma py_eq_refl_hashable a : hashable a = true -> py_eq a a = true.
Proof. intros H. now apply py_eq_class. Qed.

Lemma py_eq_str s b : py_eq (VStr s) b = true -> b = VStr s.
Proof.
  destruct b; simpl; try discriminate.
  intros E. apply String.eqb_eq in E. now subst.
Qed.

Lemma wf_value_dict d :
  wf_value (VDict d) = true ->
  unique_keys d = true /\ Forall (fun kv => wf_value (snd kv) = true) d.
Proof.
  induction d as [| [k x] d IH]; intros W.
  - split; [reflexivity | constructor].
  - cbn [wf_value] in W. apply andb_prop in W. destruct W as [W Wd].
    apply andb_prop in W. destruct W as [Wk Wx].
    destruct (IH Wd) as [U F]. split.
    + simpl. now rewrite Wk, U.
    + constructor; [exact Wx | exact F].
Qed.

Lemma py_eq_refl v : wf_value v = true -> py_eq v v = true.
Proof.
  induction v as [| b | n | s | l IH | d IH] using value_ind; intros W.
  - reflexivity.
  - now destruct b.
  - apply Z.eqb_refl.
  - apply String.eqb_refl.
  - cbn [wf_value] in W. cbn [py_eq].
    induction IH as [| x l Hx Hl IHl]; [reflexivity |].
    simpl in W. apply andb_prop in W. destruct W as [Wx Wl].
    rewrite (Hx Wx). simpl. exact (IHl Wl).
  - destruct (wf_value_dict d W) as [U F]. cbn [py_eq].
    rewrite Nat.eqb_refl. simpl. apply forallb_forall.
    intros [k x] I. simpl.
    rewrite (dict_get_In d k x U I).
    rewrite Forall_forall in IH, F.
    exact (IH (k, x) I (F (k, x) I)).
Qed.

(** ** Sets of hashable values *)

Lemma set_mem_class k s :
  hashable k = true ->
  (set_mem k s = true <-> In (hash_class k) (classes s)).
Proof.
  intros H. unfold set_mem, classes. rewrite existsb_exists, in_map_iff.
  split; intros [x [A B]]; exists x.
  - split; [symmetry; now apply py_eq_class | exact A].
  - split; [exact B | apply py_eq_class; auto].
Qed.

Lemma set_mem_false_class k s :
  hashable k = true ->
  (set_mem k s = false <-> ~ In (hash_class k) (classes s)).
Proof.
  intros H. rewrite <- (set_mem_class k s H).
  destruct (set_mem k s); split; intros; congruence.
Qed.

Lemma classes_app a b : classes (a ++ b) = classes a ++ classes b.
Proof. apply map_app. Qed.

Lemma distinct_class ks :
  forallb hashable ks = true ->
  (distinct ks = true <-> NoDup (classes ks)).
Proof.
  induction ks as [| k ks IH]; simpl; intros H.
  - split; [constructor | reflexivity].
  - apply andb_prop in H. destruct H as [Hk H].
    rewrite andb_true_iff, negb_true_iff, (set_mem_false_class k ks Hk), (IH H).
    split.
    + intros [A B]. now constructor.
    + intros N. inversion N; subst. split; assumption.
Qed.

Lemma set_add_hashable s k :
  forallb hashable s = true -> hashable k = true ->
  forallb hashable (set_add s k) = true.
Proof.
  intros Hs Hk. unfold set_add. destruct (set_mem k s); auto.
  rewrite forallb_app, Hs. simpl. now rewrite Hk.
Qed.

Lemma set_add_classes s k c :
  hashable k = true ->
  (In c (classes (set_add s k)) <-> In c (classes s) \/ c = hash_class k).
Proof.
  intros Hk. unfold set_add. destruct (set_mem k s) eqn:E.
  - apply (set_mem_class k s Hk) in E. split; [tauto |].
    intros [A | A]; [exact A | now subst].
  - rewrite classes_app, in_app_iff. simpl. intuition.
Qed.

Lemma set_add_NoDup s k :
  hashable k = true -> NoDup (classes s) -> NoDup (classes (set_add s k)).
Proof.
  intros Hk N. unfold set_add. destruct (set_mem k s) eqn:E; [exact N |].
  apply (set_mem_false_class k s Hk) in E.
  rewrite classes_app. simpl.
  apply NoDup_app; [exact N | repeat constructor; simpl; tauto |].
  intros x Hx [<- | []]. exact (E Hx).
Qed.

Lemma set_add_In s k x : In x (set_add s k) -> In x s \/ x = k.
Proof.
  unfold set_add. destruct (set_mem k s); [tauto |].
  rewrite in_app_iff. simpl. intuition.
Qed.

Lemma py_set_acc l : forall acc,
  forallb hashable acc = true -> forallb hashable l = true ->
  NoDup (classes acc) ->
  forallb hashable (fold_left set_add l acc) = true
  /\ NoDup (classes (fold_left set_add l acc))
  /\ (forall c, In c (classes (fold_left set_add l acc))
                <-> In c (classes acc) \/ In c (classes l))
  /\ (forall x, In x (fold_left set_add l acc) -> In x acc \/ In x l).
Proof.
  induction l as [| k l IH]; intros acc Ha Hl N; simpl.
  - repeat split; auto; simpl; tauto.
  - simpl in Hl. apply andb_prop in Hl. destruct Hl as [Hk Hl].
    destruct (IH (set_add acc k) (set_add_hashable _ _ Ha Hk) Hl
                 (set_add_NoDup _ _ Hk N)) as (A & B & C & D).
    repeat split; auto.
    + intros I. apply C in I. rewrite (set_add_classes acc k c Hk) in I.
      intuition.
    + intros I. apply C. rewrite (set_add_classes acc k c Hk). intuition.
    + intros x I. apply D in I. destruct I as [I | I]; [| tauto].
      apply set_add_In in I. intuition.
Qed.

Lemma py_set_absorb l : forall acc,
  forallb hashable l = true ->
  (forall c, In c (classes l) -> In c (classes acc)) ->
  fold_left set_add l acc = acc.
Proof.
  induction l as [| k l IH]; intros acc Hl I; simpl; [reflexivity |].
  simpl in Hl. apply andb_prop in Hl. destruct Hl as [Hk Hl].
  assert (E : set_mem k acc = true).
  { apply set_mem_class; auto. apply I. simpl. now left. }
  unfold set_add at 2. rewrite E. apply IH; auto.
  intros c Hc. apply I. simpl. now right.
Qed.

Lemma py_set_fresh l : forall acc,
  forallb hashable l = true ->
  NoDup (classes (acc ++ l)) ->
  fold_left set_add l acc = acc ++ l.
Proof.
  induction l as [| k l IH]; intros acc Hl N; simpl.
  - now rewrite app_nil_r.
  - simpl in Hl. apply andb_prop in Hl. destruct Hl as [Hk Hl].
    assert (E : set_mem k acc = false).
    { apply set_mem_false_class; auto.
      rewrite classes_app in N. simpl in N.
      apply NoDup_remove_2 in N. rewrite in_app_iff in N. tauto. }
    unfold set_add at 2. rewrite E.
    rewrite (IH (acc ++ [k]) Hl); rewrite <- app_assoc; auto.
Qed.

(** ** The sequence merge *)

Lemma entry_keys_app a b : entry_keys (a ++ b) = entry_keys a ++ entry_keys b.
Proof.
  induction a as [| x a IH]; simpl; [reflexivity |].
  destruct x; simpl; now rewrite IH.
Qed.

Lemma entry_keys_In d items :
  In (VDict d) items -> In (example_of d) (entry_keys items).
Proof.
  induction items as [| x items IH]; simpl; [tauto |].
  intros [-> | I]; [now left |].
  destruct x; simpl; auto.
Qed.

Lemma seen_keys_ok items : forall acc seen,
  forallb hashable acc = true ->
  seen_keys items acc = Ok seen ->
  forallb hashable seen = true
  /\ forallb hashable (entry_keys items) = true
  /\ (forall c, In c (classes seen)
                <-> In c (classes acc) \/ In c (classes (entry_keys items))).
Proof.
  induction items as [| x items IH]; intros acc seen Ha E; simpl in E.
  - inversion E; subst. simpl. repeat split; auto; tauto.
  - destruct x as [| b | n | s | l | d];
      try (solve [destruct (IH _ _ Ha E) as (A & B & C); simpl;
                  split; [exact A | split; [exact B | exact C]]]).
    destruct (hashable (example_of d)) eqn:Hk; [| discriminate E].
    destruct (IH _ _ (set_add_hashable _ _ Ha Hk) E) as (A & B & C).
    simpl. rewrite Hk. repeat split; auto.
    + intros I. apply C in I. rewrite (set_add_classes acc _ c Hk) in I.
      intuition.
    + intros I. apply C. rewrite (set_add_classes acc _ c Hk). intuition.
Qed.

Lemma seen_keys_total items : forall acc,
  forallb hashable (entry_keys items) = true ->
  exists seen, seen_keys items acc = Ok seen.
Proof.
  induction items as [| x items IH]; intros acc H; simpl.
  - now exists acc.
  - destruct x; simpl in H; auto.
    apply andb_prop in H. destruct H as [Hk H]. rewrite Hk. auto.
Qed.

Lemma merge_loop_nonlist new : forall existing seen r,
  is_list existing = false ->
  merge_loop existing seen new = Ok r -> r = existing.
Proof.
  induction new as [| item new IH]; intros existing seen r L E; simpl in E.
  - now inversion E.
  - assert (A : forall x, py_append existing x = Raise AttributeError).
    { intros x. destruct existing; simpl in *; congruence. }
    destruct item as [| b | n | s | l | d];
      try (destruct (py_in _ existing) as [[] | e]; simpl in E;
           [eauto | rewrite A in E; discriminate E | discriminate E]).
    destruct (hashable (example_of d)); [| discriminate E].
    destruct (set_mem (example_of d) seen); simpl in E; [eauto |].
    rewrite A in E. discriminate E.
Qed.

Lemma merge_loop_noop new : forall l seen,
  Forall (settled l seen) new ->
  merge_loop (VList l) seen new = Ok (VList l).
Proof.
  induction new as [| item new IH]; intros l seen F; [reflexivity |].
  inversion F as [| ? ? S F']; subst.
  destruct item as [| b | n | s | k | d]; cbn [merge_loop];
    try (cbn [py_in obind]; unfold settled in S; rewrite S; simpl;
         now apply IH).
  destruct S as [Hk I]. rewrite Hk.
  apply (set_mem_class _ _ Hk) in I. rewrite I. simpl. now apply IH.
Qed.

Lemma existsb_app_l {A} (f : A -> bool) a b :
  existsb f a = true -> existsb f (a ++ b) = true.
Proof. intros E. rewrite existsb_app, E. reflexivity. Qed.

Lemma merge_loop_list new : forall l seen r,
  merge_loop (VList l) seen new = Ok r ->
  exists ext,
    r = VList (l ++ ext)
    /\ incl ext new
    /\ forallb hashable (entry_keys ext) = true
    /\ NoDup (classes (entry_keys ext))
    /\ (forall c, In c (classes (entry_keys ext)) -> ~ In c (classes seen))
    /\ (Forall (fun x => wf_value x = true) new ->
        Forall (settled (l ++ ext) (seen ++ entry_keys ext)) new).
Proof.
  induction new as [| item new IH]; intros l seen r E.
  - simpl in E. inversion E; subst. exists []. rewrite app_nil_r.
    repeat split; simpl; auto using incl_nil_l, NoDup_nil.
  - assert (scalar :
      (forall d, item <> VDict d) ->
      (found <-- py_in item (VList l) ;;
       if negb found
       then (existing <-- py_append (VList l) item ;;
             merge_loop existing seen new)
       else merge_loop (VList l) seen new)%outcome = Ok r ->
      exists ext,
        r = VList (l ++ ext) /\ incl ext (item :: new)
        /\ forallb hashable (entry_keys ext) = true
        /\ NoDup (classes (entry_keys ext))
        /\ (forall c, In c (classes (entry_keys ext)) -> ~ In c (classes seen))
        /\ (Forall (fun x => wf_value x = true) (item :: new) ->
            Forall (settled (l ++ ext) (seen ++ entry_keys ext))
                   (item :: new))).
    { intros ND E'. cbn [py_in obind] in E'.
      destruct (existsb (py_eq item) l) eqn:F; cbn [negb py_append obind] in E'.
      - destruct (IH _ _ _ E') as (ext & R & I & H & N & D & S).
        exists ext. repeat split; auto using incl_tl.
        intros W. inversion W as [| ? ? Wi W']; subst.
        constructor; [| exact (S W')].
        destruct item; try (now apply existsb_app_l). now elim (ND fields).
      - destruct (IH _ _ _ E') as (ext & R & I & H & N & D & S).
        exists (item :: ext).
        assert (K : entry_keys (item :: ext) = entry_keys ext).
        { destruct item; try reflexivity. now elim (ND fields). }
        rewrite K. rewrite <- app_assoc in R, S. simpl in R, S.
        repeat split; auto.
        + intros x [<- | Hx]; [now left | right; now apply I].
        + intros W. inversion W as [| ? ? Wi W']; subst.
          constructor; [| exact (S W')].
          assert (X : existsb (py_eq item) (l ++ item :: ext) = true).
          { apply existsb_exists. exists item. split.
            - apply in_or_app. right. now left.
            - now apply py_eq_refl. }
          destruct item; try exact X. now elim (ND fields). }
    destruct item as [| b | n | s | k | d]; cbn [merge_loop] in E;
      try (apply scalar; [discriminate | exact E]).
    clear scalar.
    destruct (hashable (example_of d)) eqn:Hk; [| discriminate E].
    destruct (set_mem (example_of d) seen) eqn:M; cbn [negb py_append obind] in E.
    + destruct (IH _ _ _ E) as (ext & R & I & H & N & D & S).
      exists ext. repeat split; auto using incl_tl.
      intros W. inversion W as [| ? ? Wi W']; subst.
      constructor; [| exact (S W')].
      split; [exact Hk |]. rewrite classes_app. apply in_or_app. left.
      now apply set_mem_class.
    + unfold set_add in E. rewrite M in E.
      destruct (IH _ _ _ E) as (ext & R & I & H & N & D & S).
      apply (set_mem_false_class _ _ Hk) in M.
      exists (VDict d :: ext). cbn [entry_keys].
      rewrite <- app_assoc in R. repeat rewrite <- app_assoc in S.
      simpl in R, S.
      repeat split; auto.
      * intros x [<- | Hx]; [now left | right; now apply I].
      * simpl. now rewrite Hk, H.
      * simpl. constructor; [| exact N].
        intros C. apply (D _ C). rewrite classes_app. apply in_or_app.
        right. now left.
      * intros c [<- | C]; [exact M |].
        intros Cs. apply (D _ C). rewrite classes_app. apply in_or_app.
        now left.
      * intros W. inversion W as [| ? ? Wi W']; subst.
        constructor; [| exact (S W')].
        split; [exact Hk |]. rewrite classes_app. apply in_or_app. right.
        now left.
Qed.


Lemma settled_mono l s1 s2 item :
  (forall c, In c (classes s1) -> In c (classes s2)) ->
  settled l s1 item -> settled l s2 item.
Proof.
  intros I. destruct item; simpl; auto. intros [A B]. auto.
Qed.

Lemma merge_lists_nonlist existing new r :
  is_list existing = false ->
  _merge_lists existing new = Ok r -> r = existing.
Proof.
  unfold _merge_lists. intros L E.
  destruct (initial_seen existing) as [seen | e]; [| discriminate E].
  exact (merge_loop_nonlist _ _ _ _ L E).
Qed.

Lemma merge_lists_list l new r :
  _merge_lists (VList l) new = Ok r ->
  exists ext,
    r = VList (l ++ ext)
    /\ incl ext new
    /\ forallb hashable (entry_keys l) = true
    /\ forallb hashable (entry_keys ext) = true
    /\ NoDup (classes (entry_keys ext))
    /\ (forall c, In c (classes (entry_keys ext)) ->
                  ~ In c (classes (entry_keys l)))
    /\ (Forall (fun x => wf_value x = true) new ->
        Forall (settled (l ++ ext) (entry_keys (l ++ ext))) new).
Proof.
  unfold _merge_lists. cbn [initial_seen]. intros E.
  destruct (seen_keys l []) as [seen | e] eqn:Es; [| discriminate E].
  cbn [obind] in E.
  destruct (seen_keys_ok _ [] _ eq_refl Es) as (Hs & Hl & Cs).
  destruct (merge_loop_list _ _ _ _ E) as (ext & R & I & H & N & D & S).
  exists ext. repeat split; auto.
  - intros c Ce Cl. apply (D c Ce). apply Cs. now right.
  - intros W. specialize (S W).
    eapply Forall_impl; [| exact S].
    intros item. apply settled_mono.
    intros c. rewrite entry_keys_app, !classes_app, !in_app_iff.
    intros [C | C]; [| tauto].
    apply Cs in C. simpl in C. tauto.
Qed.

Lemma merge_lists_hashable l ext :
  forallb hashable (entry_keys l) = true ->
  forallb hashable (entry_keys ext) = true ->
  forallb hashable (entry_keys (l ++ ext)) = true.
Proof. intros A B. now rewrite entry_keys_app, forallb_app, A, B. Qed.

Lemma merge_lists_idem existing new r :
  Forall (fun x => wf_value x = true) new ->
  _merge_lists existing new = Ok r ->
  _merge_lists r new = Ok r.
Proof.
  intros W E. destruct (is_list existing) eqn:L.
  - destruct existing as [| | | | l |]; try discriminate L.
    destruct (merge_lists_list _ _ _ E) as (ext & -> & _ & Hl & He & _ & _ & S).
    unfold _merge_lists. cbn [initial_seen].
    destruct (seen_keys_total (l ++ ext) [] (merge_lists_hashable _ _ Hl He))
      as [seen Es].
    rewrite Es. cbn [obind].
    destruct (seen_keys_ok _ [] _ eq_refl Es) as (_ & _ & Cs).
    apply merge_loop_noop.
    eapply Forall_impl; [| exact (S W)].
    intros item. apply settled_mono. intros c C. apply Cs. now right.
  - rewrite (merge_lists_nonlist _ _ _ L E) at 1 2.
    rewrite <- (merge_lists_nonlist _ _ _ L E) at 2. exact E.
Qed.

(** ** The loop over the incoming categories *)

Lemma update_item_dict p key val :
  update_item (VDict p) key val
  = (x <-- category_merge (dict_get key p) val ;;
     Ok (VDict (dict_set key x p)))%outcome.
Proof.
  unfold update_item, category_merge. cbn [py_in hashable obind py_getitem].
  unfold dict_has.
  destruct (dict_get key p) as [stored |]; destruct val; cbn; reflexivity.
Qed.

Lemma update_item_nondict patterns key val :
  is_dict patterns = false ->
  exists e, update_item patterns key val = Raise e.
Proof.
  unfold update_item. intros D.
  destruct patterns as [| b | n | s | l | d]; try discriminate D;
    cbn [py_in obind]; eauto.
  - destruct (is_substring key s); destruct val; cbn; eauto.
  - destruct (existsb (py_eq (VStr key)) l); destruct val; cbn; eauto.
Qed.

Lemma update_items_nondict patterns items r :
  is_dict patterns = false ->
  update_items patterns items = Ok r -> items = [] /\ r = patterns.
Proof.
  intros D E. destruct items as [| [key val] rest]; simpl in E.
  - inversion E. auto.
  - destruct (update_item_nondict patterns key val D) as [e Er].
    rewrite Er in E. discriminate E.
Qed.

Lemma update_items_dict items : forall p r,
  unique_keys items = true ->
  update_items (VDict p) items = Ok r ->
  exists p',
    r = VDict p'
    /\ (forall k, dict_get k items = None -> dict_get k p' = dict_get k p)
    /\ (forall k v, dict_get k items = Some v ->
          exists x, category_merge (dict_get k p) v = Ok x
                    /\ dict_get k p' = Some x)
    /\ (forall k, dict_has k p = true -> dict_has k p' = true).
Proof.
  induction items as [| [key val] rest IH]; intros p r U E; simpl in E.
  - inversion E; subst. exists p. repeat split; auto.
    intros k v G. discriminate G.
  - simpl in U. apply andb_prop in U. destruct U as [Uk U].
    apply negb_true_iff in Uk. unfold dict_has in Uk.
    rewrite update_item_dict in E.
    destruct (category_merge (dict_get key p) val) as [x |] eqn:C;
      [| discriminate E].
    cbn [obind] in E.
    destruct (IH _ _ U E) as (p' & -> & Same & New & Has).
    exists p'. split; [reflexivity |]. split; [| split].
    + intros k G. simpl in G.
      destruct (String.eqb k key) eqn:K; [discriminate G |].
      rewrite (Same k G). apply dict_get_set_neq.
      apply String.eqb_neq in K. congruence.
    + intros k v G. simpl in G.
      destruct (String.eqb k key) eqn:K.
      * apply String.eqb_eq in K. subst k. inversion G; subst v.
        exists x. split; [exact C |].
        destruct (dict_get key rest) eqn:R; [discriminate Uk |].
        rewrite (Same key R). apply dict_get_set_eq.
      * destruct (New k v G) as (y & Cy & Gy).
        exists y. split; [| exact Gy].
        rewrite dict_get_set_neq in Cy; auto.
        apply String.eqb_neq in K. congruence.
    + intros k Hk. apply Has. rewrite dict_has_set, Hk. apply orb_true_r.
Qed.

(** ** The methods *)

Section Properties.

Variable stamp : nat -> string.
Variable set_iter : nat -> list value -> list value.

(** Walking a set visits each member once. *)
Hypothesis set_iter_perm : forall n s, Permutation (set_iter n s) s.

Local Abbreviation now := (now stamp).
Local Abbreviation _empty_patterns := (_empty_patterns stamp).
Local Abbreviation load := (load stamp).
Local Abbreviation save := (save stamp).
Local Abbreviation clear := (clear stamp).
Local Abbreviation list_of_set := (list_of_set set_iter).
Local Abbreviation update := (update stamp set_iter).

Lemma update_inv new sources w c' w' :
  update new sources w = (Ok c', w') ->
  exists c w1 all patterns',
    load w = (Ok (VDict c), w1)
    /\ py_add_list (dict_get_default "sources" (VList []) c)
                   (map VStr sources) = Ok all
    /\ forallb hashable all = true
    /\ update_items (dict_get_default "patterns" (VDict []) c) new
       = Ok patterns'
    /\ dict_get "sources" c'
       = Some (VList (set_iter (S (ticks w1)) (py_set all)))
    /\ dict_get "patterns" c' = Some patterns'
    /\ file w' = Some (Document (VDict c')).
Proof.
  unfold update, bind. intros E.
  destruct (load w) as [[v | e] w1] eqn:L; [| discriminate E].
  destruct v as [| | | | | c]; cbn [now lift py_setitem] in E;
    try discriminate E.
  cbv beta in E.
  exists c, w1.
  unfold dict_get_default in E at 1.
  rewrite dict_get_set_neq in E by discriminate.
  fold (dict_get_default "sources" (VList []) c) in E.
  destruct (py_add_list _ _) as [all | e] eqn:A; [| discriminate E].
  destruct (forallb hashable all) eqn:H; [| discriminate E].
  cbn [list_of_set ticks] in E.
  set (c2 := dict_set "sources" _ _) in E.
  set (c3 := if negb (dict_has "patterns" c2) then _ else _) in E.
  assert (P : dict_get_default "patterns" VNone c3
              = dict_get_default "patterns" (VDict []) c).
  { assert (G : dict_get "patterns" c2 = dict_get "patterns" c).
    { unfold c2. now rewrite !dict_get_set_neq by discriminate. }
    unfold c3, dict_has, dict_get_default. rewrite G.
    destruct (dict_get "patterns" c) eqn:Gc; cbn [negb].
    - now rewrite G.
    - now rewrite dict_get_set_eq. }
  rewrite P in E.
  destruct (update_items _ new) as [patterns' | e] eqn:U; [| discriminate E].
  exists all, patterns'.
  unfold save, bind, now, write_json, ret in E. simpl in E.
  inversion E; subst c' w'; clear E.
  repeat split; auto.
  - rewrite dict_get_set_neq by discriminate.
    rewrite dict_get_set_neq by discriminate.
    unfold c3. destruct (negb (dict_has "patterns" c2)).
    + rewrite dict_get_set_neq by discriminate. apply dict_get_set_eq.
    + apply dict_get_set_eq.
  - rewrite dict_get_set_neq by discriminate. apply dict_get_set_eq.
Qed.

Lemma set_iter_nil n : set_iter n [] = [].
Proof. apply Permutation_nil. apply Permutation_sym, set_iter_perm. Qed.

Lemma set_iter_one n x : set_iter n [x] = [x].
Proof. apply Permutation_length_1_inv. apply Permutation_sym, set_iter_perm. Qed.

Lemma load_document v n :
  load (mkWorld (Some (Document v)) n) = (Ok v, mkWorld (Some (Document v)) n).
Proof. reflexivity. Qed.

Lemma load_stored w c :
  file w = Some (Document (VDict c)) -> load w = (Ok (VDict c), w).
Proof. intros F. unfold load. now rewrite F. Qed.

(** C2. [load] on a missing file returns the empty scaffold (version
    ["1.0"], both timestamps read from the clock, no sources, no patterns)
    and does not raise; on a file that is not a well-formed document it
    raises the parse error and leaves the file as it was. *)
Theorem load_missing_or_corrupt :
  (forall n,
     load (mkWorld None n)
     = (Ok (VDict [("version", VStr "1.0");
                   ("created_at", VStr (stamp n));
                   ("updated_at", VStr (stamp (S n)));
                   ("sources", VList []);
                   ("patterns", VDict [])]),
        mkWorld None (S (S n))))
  /\ (forall raw n,
        load (mkWorld (Some (Garbage raw)) n)
        = (Raise JSONDecodeError, mkWorld (Some (Garbage raw)) n)).
Proof. split; reflexivity. Qed.

(** C8. [clear] is [save] applied to the empty scaffold, and whatever the
    store held before, a [load] after [clear] returns a collection with an
    empty patterns mapping and an empty sources sequence. *)
Theorem clear_resets w :
  (exists scaffold w0 saved,
     _empty_patterns w = (Ok scaffold, w0)
     /\ save scaffold w0 = (Ok saved, snd (clear w))
     /\ fst (clear w) = Ok tt)
  /\ (exists c,
        load (snd (clear w)) = (Ok (VDict c), snd (clear w))
        /\ dict_get "patterns" c = Some (VDict [])
        /\ dict_get "sources" c = Some (VList [])).
Proof.
  split.
  - do 3 eexists. split; [reflexivity | split; [cbv; reflexivity | reflexivity]].
  - eexists. split; [cbv; reflexivity | split; reflexivity].
Qed.
Ltac run_update :=
  vm_compute; rewrite ?set_iter_nil, ?set_iter_one; try reflexivity.

Lemma distinct_of_classes ks :
  forallb hashable ks = true -> NoDup (classes ks) -> distinct ks = true.
Proof. intros H N. now apply distinct_class. Qed.

Lemma appended_keys l new r :
  _merge_lists (VList l) new = Ok r ->
  exists ext,
    r = VList (l ++ ext)
    /\ incl ext new
    /\ distinct (entry_keys ext) = true
    /\ (forall k, In k (entry_keys ext) -> set_mem k (entry_keys l) = false)
    /\ (distinct (entry_keys l) = true ->
        distinct (entry_keys (l ++ ext)) = true).
Proof.
  intros E.
  destruct (merge_lists_list _ _ _ E) as (ext & R & I & Hl & He & N & D & _).
  exists ext. repeat split; auto.
  - now apply distinct_of_classes.
  - intros k Hk.
    assert (hashable k = true) by (rewrite forallb_forall in He; auto).
    apply set_mem_false_class; auto.
    apply D. now apply in_map.
  - intros Dl. apply distinct_of_classes.
    + now apply merge_lists_hashable.
    + rewrite entry_keys_app, classes_app.
      apply NoDup_app; auto.
      * now apply distinct_class.
      * intros c Cl Ce. exact (D c Ce Cl).
Qed.

(** C3. Sequence merge deduplicates on the [example] key.  An incoming
    dict entry is appended only when its key is not in the seen set, and the
    key then joins the seen set; a later entry of the same batch with that
    key is rejected; the entries a merge appends have pairwise distinct keys,
    none of them a key of an entry already stored.  From an empty store,
    [update({"hooks": [A, B]}, ["p1"])] then
    [update({"hooks": [B, C]}, ["p2"])] leaves exactly the three hooks
    A, B, C. *)
Theorem sequence_dedup (l seen : list value) (d : dict) (rest : list value) :
  hashable (example_of d) = true ->
  merge_loop (VList l) seen (VDict d :: rest)
  = (if set_mem (example_of d) seen
     then merge_loop (VList l) seen rest
     else merge_loop (VList (l ++ [VDict d])) (seen ++ [example_of d]) rest)
  /\ (forall d',
        example_of d' = example_of d ->
        set_mem (example_of d) seen = false ->
        merge_loop (VList l) seen (VDict d :: VDict d' :: rest)
        = merge_loop (VList (l ++ [VDict d])) (seen ++ [example_of d]) rest)
  /\ (forall stored new r,
        _merge_lists (VList stored) new = Ok r ->
        exists ext,
          r = VList (stored ++ ext)
          /\ incl ext new
          /\ distinct (entry_keys ext) = true
          /\ (forall k, In k (entry_keys ext) ->
                        set_mem k (entry_keys stored) = false))
  /\ (forall n,
        exists c w',
          update [("hooks", VList [entry "B"; entry "C"])] ["p2"]
            (snd (update [("hooks", VList [entry "A"; entry "B"])] ["p1"]
                    (fresh n)))
          = (Ok c, w')
          /\ dict_get "patterns" c
             = Some (VDict [("hooks",
                             VList [entry "A"; entry "B"; entry "C"])])).
Proof.
  intros Hk. split; [| split; [| split]].
  - cbn [merge_loop]. rewrite Hk. unfold set_add.
    now destruct (set_mem (example_of d) seen).
  - intros d' Same Unseen. cbn [merge_loop].
    rewrite Same, Hk, Unseen. cbn [negb py_append obind].
    unfold set_add. rewrite Unseen.
    assert (M : set_mem (example_of d) (seen ++ [example_of d]) = true).
    { unfold set_mem. rewrite existsb_app. simpl.
      rewrite (py_eq_refl_hashable _ Hk). now rewrite orb_true_r. }
    now rewrite M.
  - intros stored new r E.
    destruct (appended_keys _ _ _ E) as (ext & R & I & D & F & _).
    exists ext. auto.
  - intros n.
    assert (E1 : update [("hooks", VList [entry "A"; entry "B"])] ["p1"]
                   (fresh n)
                 = (Ok [("version", VStr "1.0");
                        ("created_at", VStr (stamp n));
                        ("updated_at", VStr (stamp (S (S (S n)))));
                        ("sources", VList [VStr "p1"]);
                        ("patterns",
                         VDict [("hooks", VList [entry "A"; entry "B"])])],
                    mkWorld
                      (Some (Document (VDict
                         [("version", VStr "1.0");
                          ("created_at", VStr (stamp n));
                          ("updated_at", VStr (stamp (S (S (S n)))));
                          ("sources", VList [VStr "p1"]);
                          ("patterns",
                           VDict [("hooks",
                                   VList [entry "A"; entry "B"])])])))
                      (S (S (S (S n)))))) by run_update.
    rewrite E1. cbn [snd].
    do 2 eexists. split; [cbv; reflexivity | reflexivity].
Qed.
(** What a returning [update] did to the categories, when the stored
    patterns value is a dict. *)
Lemma update_categories new sources w c w1 p c' w' :
  unique_keys new = true ->
  load w = (Ok (VDict c), w1) ->
  dict_get "patterns" c = Some (VDict p) ->
  update new sources w = (Ok c', w') ->
  exists p',
    dict_get "patterns" c' = Some (VDict p')
    /\ (forall k, dict_get k new = None -> dict_get k p' = dict_get k p)
    /\ (forall k v, dict_get k new = Some v ->
          exists x, category_merge (dict_get k p) v = Ok x
                    /\ dict_get k p' = Some x)
    /\ (forall k, dict_has k p = true -> dict_has k p' = true).
Proof.
  intros U L P E.
  destruct (update_inv _ _ _ _ _ E) as (c0 & w0 & all & r & L0 & _ & _ & I & _ & G & _).
  rewrite L in L0. inversion L0; subst c0 w0; clear L0.
  unfold dict_get_default in I. rewrite P in I.
  destruct (update_items_dict _ _ _ U I) as (p' & -> & A & B & C).
  exists p'. auto.
Qed.

(** The same when the store has no patterns yet or a non-dict there: the
    stored patterns value must be a dict as soon as [new] has an item. *)
Lemma update_categories_any new sources w c' w' k v :
  unique_keys new = true ->
  dict_get k new = Some v ->
  update new sources w = (Ok c', w') ->
  exists p p',
    dict_get "patterns" c' = Some (VDict p')
    /\ (exists x, category_merge (dict_get k p) v = Ok x
                  /\ dict_get k p' = Some x).
Proof.
  intros U K E.
  destruct (update_inv _ _ _ _ _ E) as (c0 & w0 & all & r & L0 & _ & _ & I & _ & G & _).
  destruct (dict_get_default "patterns" (VDict []) c0) as [| | | | | p] eqn:D;
    try (apply update_items_nondict in I; [| reflexivity];
         destruct I as [-> _]; discriminate K).
  destruct (update_items_dict _ _ _ U I) as (p' & -> & A & B & C).
  exists p, p'. split; [exact G |]. exact (B k v K).
Qed.

(** C4. Mapping merge.  When a category stores a dict and the incoming
    value is a dict, the category afterwards maps every key of the incoming
    dict to the incoming value and every other key of the stored dict to its
    stored value.  [update({"tone": {"formality": "casual"}}, [])] then
    [update({"tone": {"voice": "direct"}}, [])] leaves
    [tone == {"formality": "casual", "voice": "direct"}]. *)
Theorem mapping_merge new sources w c w1 p key stored inc c' w' :
  unique_keys new = true ->
  unique_keys inc = true ->
  load w = (Ok (VDict c), w1) ->
  dict_get "patterns" c = Some (VDict p) ->
  dict_get key p = Some (VDict stored) ->
  dict_get key new = Some (VDict inc) ->
  update new sources w = (Ok c', w') ->
  (exists p' merged,
     dict_get "patterns" c' = Some (VDict p')
     /\ dict_get key p' = Some (VDict merged)
     /\ forall a,
          dict_get a merged
          = match dict_get a inc with
            | Some v => Some v
            | None => dict_get a stored
            end)
  /\ (forall n,
        exists c2 w2,
          update [("tone", VDict [("voice", VStr "direct")])] []
            (snd (update [("tone", VDict [("formality", VStr "casual")])] []
                    (fresh n)))
          = (Ok c2, w2)
          /\ dict_get "patterns" c2
             = Some (VDict [("tone", VDict [("formality", VStr "casual");
                                            ("voice", VStr "direct")])])).
Proof.
  intros U Ui L P St N E. split.
  - destruct (update_categories _ _ _ _ _ _ _ _ U L P E) as (p' & G & _ & B & _).
    destruct (B key _ N) as (x & Cx & Gx).
    rewrite St in Cx. cbn in Cx. inversion Cx; subst x.
    exists p', (dict_update stored inc). repeat split; auto.
    intros a. now apply dict_get_update.
  - intros n.
    assert (E1 : update [("tone", VDict [("formality", VStr "casual")])] []
                   (fresh n)
                 = (Ok [("version", VStr "1.0");
                        ("created_at", VStr (stamp n));
                        ("updated_at", VStr (stamp (S (S (S n)))));
                        ("sources", VList []);
                        ("patterns",
                         VDict [("tone",
                                 VDict [("formality", VStr "casual")])])],
                    mkWorld
                      (Some (Document (VDict
                         [("version", VStr "1.0");
                          ("created_at", VStr (stamp n));
                          ("updated_at", VStr (stamp (S (S (S n)))));
                          ("sources", VList []);
                          ("patterns",
                           VDict [("tone",
                                   VDict [("formality", VStr "casual")])])])))
                      (S (S (S (S n)))))) by run_update.
    rewrite E1. cbn [snd].
    do 2 eexists. split; [cbv; reflexivity | reflexivity].
Qed.

(** C1 (as the code has it).  The replace branch is the one taken for an
    incoming value that is neither a list nor a dict: whatever the category
    stored, and whether or not it existed, it is afterwards the incoming
    value.  [update({"topics": ["x", "y"]}, [])] then
    [update({"topics": "x"}, [])] leaves [topics == "x"]. *)
Theorem scalar_replaces new sources w key v c' w' :
  unique_keys new = true ->
  dict_get key new = Some v ->
  is_list v = false ->
  is_dict v = false ->
  update new sources w = (Ok c', w') ->
  (exists p',
     dict_get "patterns" c' = Some (VDict p') /\ dict_get key p' = Some v)
  /\ (forall n,
        exists c2 w2,
          update [("topics", VStr "x")] []
            (snd (update [("topics", VList [VStr "x"; VStr "y"])] []
                    (fresh n)))
          = (Ok c2, w2)
          /\ dict_get "patterns" c2 = Some (VDict [("topics", VStr "x")])).
Proof.
  intros U K NL ND E. split.
  - destruct (update_categories_any _ _ _ _ _ _ _ U K E)
      as (p & p' & G & x & Cx & Gx).
    exists p'. split; [exact G |].
    assert (x = v); [| now subst].
    unfold category_merge in Cx.
    destruct (dict_get key p); destruct v; simpl in *;
      try discriminate; now inversion Cx.
  - intros n.
    assert (E1 : update [("topics", VList [VStr "x"; VStr "y"])] [] (fresh n)
                 = (Ok [("version", VStr "1.0");
                        ("created_at", VStr (stamp n));
                        ("updated_at", VStr (stamp (S (S (S n)))));
                        ("sources", VList []);
                        ("patterns",
                         VDict [("topics", VList [VStr "x"; VStr "y"])])],
                    mkWorld
                      (Some (Document (VDict
                         [("version", VStr "1.0");
                          ("created_at", VStr (stamp n));
                          ("updated_at", VStr (stamp (S (S (S n)))));
                          ("sources", VList []);
                          ("patterns",
                           VDict [("topics",
                                   VList [VStr "x"; VStr "y"])])])))
                      (S (S (S (S n)))))) by run_update.
    rewrite E1. cbn [snd].
    do 2 eexists. split; [cbv; reflexivity | reflexivity].
Qed.

(** C10. Frame of [update].  A category that is not a key of the incoming
    mapping keeps its value; no category is removed; and a sequence merged
    into a stored sequence leaves the stored entries in place and in order,
    adding entries of the incoming sequence after them. *)
Theorem update_frame new sources w c w1 p c' w' :
  unique_keys new = true ->
  load w = (Ok (VDict c), w1) ->
  dict_get "patterns" c = Some (VDict p) ->
  update new sources w = (Ok c', w') ->
  exists p',
    dict_get "patterns" c' = Some (VDict p')
    /\ (forall k, dict_has k new = false -> dict_get k p' = dict_get k p)
    /\ (forall k, dict_has k p = true -> dict_has k p' = true)
    /\ (forall k l incoming,
          dict_get k p = Some (VList l) ->
          dict_get k new = Some (VList incoming) ->
          exists ext,
            dict_get k p' = Some (VList (l ++ ext)) /\ incl ext incoming).
Proof.
  intros U L P E.
  destruct (update_categories _ _ _ _ _ _ _ _ U L P E) as (p' & G & A & B & C).
  exists p'. repeat split; auto.
  - intros k H. apply A. unfold dict_has in H.
    now destruct (dict_get k new).
  - intros k l incoming St N.
    destruct (B k _ N) as (x & Cx & Gx).
    rewrite St in Cx. cbn [category_merge] in Cx.
    destruct (merge_lists_list _ _ _ Cx) as (ext & -> & I & _).
    exists ext. auto.
Qed.
Lemma keyless_none items :
  set_mem VNone (entry_keys items) = false -> keyless items = [].
Proof.
  induction items as [| x items IH]; [reflexivity |].
  destruct x as [| | | | | d]; cbn [entry_keys keyless filter]; auto.
  unfold set_mem. cbn [existsb]. intros M.
  apply orb_false_elim in M. destruct M as [M0 M].
  fold (keyless items). rewrite (IH M).
  unfold example_of, dict_get_default, dict_has in *.
  destruct (dict_get "example" d); [reflexivity | discriminate M0].
Qed.

Lemma keyless_at_most_one items :
  distinct (entry_keys items) = true -> List.length (keyless items) <= 1.
Proof.
  induction items as [| x items IH]; [simpl; lia |].
  destruct x as [| | | | | d]; cbn [entry_keys keyless filter]; auto.
  cbn [distinct]. intros D. apply andb_prop in D. destruct D as [D0 D].
  fold (keyless items).
  unfold example_of, dict_get_default, dict_has in *.
  destruct (dict_get "example" d); cbn [negb]; [now apply IH |].
  apply negb_true_iff in D0. rewrite (keyless_none _ D0). simpl. lia.
Qed.

(** C6 (as the code has it).  A sequence merge keeps identity keys
    distinct: when a category stored as a sequence whose dict entries have
    pairwise distinct [example] keys (a missing key counting as [None])
    receives an incoming sequence, its dict entries afterwards still have
    pairwise distinct keys, so at most one of them lacks the [example]
    field. *)
Theorem merge_keeps_keys_distinct new sources w c w1 p key l incoming c' w' :
  unique_keys new = true ->
  load w = (Ok (VDict c), w1) ->
  dict_get "patterns" c = Some (VDict p) ->
  dict_get key p = Some (VList l) ->
  distinct (entry_keys l) = true ->
  dict_get key new = Some (VList incoming) ->
  update new sources w = (Ok c', w') ->
  exists p' l',
    dict_get "patterns" c' = Some (VDict p')
    /\ dict_get key p' = Some (VList l')
    /\ distinct (entry_keys l') = true
    /\ List.length (keyless l') <= 1.
Proof.
  intros U L P St D N E.
  destruct (update_categories _ _ _ _ _ _ _ _ U L P E) as (p' & G & _ & B & _).
  destruct (B key _ N) as (x & Cx & Gx).
  rewrite St in Cx. cbn [category_merge] in Cx.
  destruct (appended_keys _ _ _ Cx) as (ext & -> & _ & _ & _ & K).
  exists p', (l ++ ext). repeat split; auto.
  apply keyless_at_most_one. auto.
Qed.
Lemma hashable_perm a b :
  Permutation a b -> forallb hashable b = true -> forallb hashable a = true.
Proof.
  intros P H. rewrite forallb_forall in *. intros x I.
  apply H. exact (Permutation_in _ P I).
Qed.

Lemma classes_perm a b : Permutation a b -> Permutation (classes a) (classes b).
Proof. apply Permutation_map. Qed.

Lemma hash_class_str x s : hash_class x = VStr s -> x = VStr s.
Proof. destruct x; simpl; congruence. Qed.

(** The set built from a list of hashable values. *)
Lemma py_set_ok all :
  forallb hashable all = true ->
  forallb hashable (py_set all) = true
  /\ NoDup (classes (py_set all))
  /\ (forall c, In c (classes (py_set all)) <-> In c (classes all))
  /\ incl (py_set all) all.
Proof.
  intros H. unfold py_set.
  destruct (py_set_acc all [] eq_refl H (NoDup_nil _)) as (A & B & C & D).
  repeat split; auto.
  - intros I. apply C in I. simpl in I. tauto.
  - intros I. apply C. now right.
  - intros x I. apply D in I. simpl in I. tauto.
Qed.

(** The sources a returning [update] leaves. *)
Lemma update_sources new sources w c w1 c' w' :
  load w = (Ok (VDict c), w1) ->
  update new sources w = (Ok c', w') ->
  exists stored merged,
    dict_get_default "sources" (VList []) c = VList stored
    /\ dict_get "sources" c' = Some (VList merged)
    /\ forallb hashable (stored ++ map VStr sources) = true
    /\ Permutation merged (py_set (stored ++ map VStr sources))
    /\ file w' = Some (Document (VDict c')).
Proof.
  intros L E.
  destruct (update_inv _ _ _ _ _ E)
    as (c0 & w0 & all & r & L0 & A & H & _ & G & _ & F).
  rewrite L in L0. inversion L0; subst c0 w0; clear L0.
  destruct (dict_get_default "sources" (VList []) c) as [| | | | stored |];
    try discriminate A.
  cbn [py_add_list] in A. inversion A; subst all; clear A.
  exists stored, (set_iter (S (ticks w1)) (py_set (stored ++ map VStr sources))).
  repeat split; auto.
Qed.

(** C5. Source union.  The sources a call leaves are the stored sources
    together with the incoming ones, each once: the sequence has no repeated
    member, no two members are [==], and an identifier is in it exactly when
    it was stored or is incoming.  [update({}, ["a.md"])] then
    [update({}, ["a.md", "b.md"])] leaves two sources, ["a.md"] and
    ["b.md"]. *)
Theorem source_union new sources w c w1 c' w' :
  load w = (Ok (VDict c), w1) ->
  update new sources w = (Ok c', w') ->
  (exists stored merged,
     dict_get_default "sources" (VList []) c = VList stored
     /\ dict_get "sources" c' = Some (VList merged)
     /\ NoDup merged
     /\ distinct merged = true
     /\ (forall id, In (VStr id) merged
                    <-> In (VStr id) stored \/ In id sources)
     /\ (forall x, In x merged ->
                   In x stored \/ exists id, x = VStr id /\ In id sources))
  /\ (forall n,
        exists c2 w2 merged,
          update [] ["a.md"; "b.md"] (snd (update [] ["a.md"] (fresh n)))
          = (Ok c2, w2)
          /\ dict_get "sources" c2 = Some (VList merged)
          /\ List.length merged = 2
          /\ (forall x, In x merged <-> x = VStr "a.md" \/ x = VStr "b.md")).
Proof.
  intros L E. split.
  - destruct (update_sources _ _ _ _ _ _ _ L E)
      as (stored & merged & Gs & Gm & H & P & _).
    destruct (py_set_ok _ H) as (Hs & N & C & I).
    assert (Hm : forallb hashable merged = true) by exact (hashable_perm _ _ P Hs).
    assert (Nm : NoDup (classes merged)).
    { apply (Permutation_NoDup (Permutation_sym (classes_perm _ _ P))), N. }
    exists stored, merged. repeat split; auto.
    + exact (NoDup_map_inv _ _ Nm).
    + now apply distinct_class.
    + intros M. apply (Permutation_in _ P), I, in_app_or in M.
      destruct M as [M | M]; [now left | right].
      apply in_map_iff in M. destruct M as (y & Y & M). now inversion Y; subst.
    + intros M.
      assert (A : In (VStr id) (stored ++ map VStr sources)).
      { apply in_or_app. destruct M as [M | M]; [now left | right].
        now apply in_map. }
      apply (in_map hash_class), C, in_map_iff in A.
      destruct A as (y & Y & A). apply hash_class_str in Y. subst y.
      exact (Permutation_in _ (Permutation_sym P) A).
    + intros x M. apply (Permutation_in _ P), I, in_app_or in M.
      destruct M as [M | M]; [now left | right].
      apply in_map_iff in M. destruct M as (y & Y & M). eauto.
  - intros n.
    assert (E1 : update [] ["a.md"] (fresh n)
                 = (Ok [("version", VStr "1.0");
                        ("created_at", VStr (stamp n));
                        ("updated_at", VStr (stamp (S (S (S n)))));
                        ("sources", VList [VStr "a.md"]);
                        ("patterns", VDict [])],
                    mkWorld
                      (Some (Document (VDict
                         [("version", VStr "1.0");
                          ("created_at", VStr (stamp n));
                          ("updated_at", VStr (stamp (S (S (S n)))));
                          ("sources", VList [VStr "a.md"]);
                          ("patterns", VDict [])])))
                      (S (S (S (S n)))))) by run_update.
    rewrite E1. cbn [snd].
    pose proof (set_iter_perm (S (S (S (S (S n)))))
                  [VStr "a.md"; VStr "b.md"]) as P.
    do 3 eexists. split; [cbv; reflexivity |].
    split; [reflexivity |]. split.
    + now rewrite (Permutation_length P).
    + intros x. split.
      * intros I. apply (Permutation_in _ P) in I. simpl in I.
        intuition congruence.
      * intros I. apply (Permutation_in _ (Permutation_sym P)). simpl.
        intuition congruence.
Qed.
Lemma merge_lists_self items r :
  Forall (fun x => wf_value x = true) items ->
  _merge_lists (VList items) items = Ok r -> r = VList items.
Proof.
  unfold _merge_lists. cbn [initial_seen]. intros W E.
  destruct (seen_keys items []) as [seen | e] eqn:Es; [| discriminate E].
  cbn [obind] in E.
  destruct (seen_keys_ok _ [] _ eq_refl Es) as (_ & H & Cs).
  rewrite merge_loop_noop in E; [now inversion E |].
  rewrite Forall_forall in *. intros item I.
  assert (X : existsb (py_eq item) items = true).
  { apply existsb_exists. exists item.
    split; [exact I | apply py_eq_refl; now apply W]. }
  destruct item as [| | | | | d]; try exact X.
  simpl. split.
  - rewrite forallb_forall in H. apply H. now apply entry_keys_In.
  - apply Cs. right. apply in_map. now apply entry_keys_In.
Qed.

Lemma wf_items key items new :
  wf_value (VDict new) = true ->
  dict_get key new = Some (VList items) ->
  Forall (fun x => wf_value x = true) items.
Proof.
  intros W G. destruct (wf_value_dict _ W) as [_ F].
  assert (I : In (key, VList items) new).
  { clear W F. induction new as [| [k v] new IH]; simpl in G; [discriminate |].
    destruct (String.eqb key k) eqn:K.
    - apply String.eqb_eq in K. inversion G; subst. now left.
    - right. auto. }
  rewrite Forall_forall in F. specialize (F _ I). simpl in F.
  apply Forall_forall. intros x Hx.
  rewrite forallb_forall in F. auto.
Qed.

(** ** The summary *)

Section Summary.

Variable format_container : value -> string.

Local Abbreviation py_str := (py_str format_container).
Local Abbreviation structure_line := (structure_line format_container).
Local Abbreviation tone_line := (tone_line format_container).
Local Abbreviation summary_header := (summary_header format_container).
Local Abbreviation summarize := (summarize format_container).
Local Abbreviation get_summary := (get_summary stamp format_container).
Local Abbreviation attribute_metric := (attribute_metric format_container).
Local Abbreviation digest := (digest format_container).

Lemma summary_line_present p name render v :
  dict_get name p = Some v ->
  summary_line (VDict p) name render
  = (line <-- render v ;; Ok [line])%outcome.
Proof.
  intros G. unfold summary_line. cbn [py_in hashable obind py_getitem].
  unfold dict_has. now rewrite G.
Qed.

Lemma summary_line_absent p name render :
  dict_get name p = None -> summary_line (VDict p) name render = Ok [].
Proof.
  intros G. unfold summary_line. cbn [py_in hashable obind].
  unfold dict_has. now rewrite G.
Qed.

Lemma summary_line_other p name render k v :
  k <> name ->
  summary_line (VDict (dict_set k v p)) name render
  = summary_line (VDict p) name render.
Proof.
  intros N. unfold summary_line. cbn [py_in hashable obind py_getitem].
  unfold dict_has. now rewrite dict_get_set_neq.
Qed.

Lemma summary_line_metric p name render metric lines :
  (forall v line, metric v = Some line -> render v = Ok line) ->
  metric_lines p name metric = Some lines ->
  summary_line (VDict p) name render = Ok lines.
Proof.
  intros R. unfold metric_lines.
  destruct (dict_get name p) as [v |] eqn:G.
  - destruct (metric v) as [line |] eqn:Mv; [| discriminate].
    intros E. inversion E; subst lines.
    rewrite (summary_line_present _ _ _ _ G), (R _ _ Mv). reflexivity.
  - intros E. inversion E; subst lines. now apply summary_line_absent.
Qed.

Lemma summary_line_count p name render lines :
  summary_line (VDict p) name render = Ok lines ->
  List.length lines = if dict_has name p then 1 else 0.
Proof.
  unfold summary_line. cbn [py_in hashable obind].
  destruct (dict_has name p).
  - destruct (py_getitem (VDict p) name); cbn [obind]; [| discriminate].
    destruct (render a); cbn [obind]; [| discriminate].
    intros E. now inversion E.
  - intros E. now inversion E.
Qed.

Lemma append_empty s : String.append s "" = s.
Proof. induction s; simpl; congruence. Qed.


End Summary.

End Properties.

(** ** Closed runs *)

Lemma insertion_order_perm n s : Permutation (insertion_order n s) s.
Proof. apply Permutation_refl. Qed.

(** C1, as stated, fails.  After [update({"topics": ["x", "y"]}, [])], the
    call [update({"topics": {"primary": "x"}}, [])] reaches
    [current["patterns"]["topics"].update(value)] on a list: it raises
    [AttributeError], nothing is saved, and the stored topics are still
    [["x", "y"]], not [{"primary": "x"}]. *)
Lemma shape_mismatch_raises :
  update frozen_clock insertion_order
    [("topics", VDict [("primary", VStr "x")])] []
    (snd (update frozen_clock insertion_order
            [("topics", VList [VStr "x"; VStr "y"])] [] (fresh 0)))
  = (Raise AttributeError,
     holding (collection (frozen_clock 0) (frozen_clock 3) []
                [("topics", VList [VStr "x"; VStr "y"])]) 5).
Proof. vm_compute. reflexivity. Qed.

Lemma scalar_replaces_witness :
  update frozen_clock insertion_order [("topics", VStr "x")] []
    (holding (collection "2024-12-31" "2024-12-31" []
                [("topics", VList [VStr "x"; VStr "y"])]) 0)
  = (Ok (collection "2024-12-31" (frozen_clock 1) [] [("topics", VStr "x")]),
     holding (collection "2024-12-31" (frozen_clock 1) []
                [("topics", VStr "x")]) 2)
  /\ exists p',
       dict_get "patterns"
         (collection "2024-12-31" (frozen_clock 1) [] [("topics", VStr "x")])
       = Some (VDict p')
       /\ dict_get "topics" p' = Some (VStr "x").
Proof.
  split; [vm_compute; reflexivity |].
  refine (proj1 (scalar_replaces frozen_clock insertion_order
                   insertion_order_perm
                   [("topics", VStr "x")] []
                   (holding (collection "2024-12-31" "2024-12-31" []
                               [("topics", VList [VStr "x"; VStr "y"])]) 0)
                   "topics" (VStr "x")
                   (collection "2024-12-31" (frozen_clock 1) []
                      [("topics", VStr "x")])
                   (holding (collection "2024-12-31" (frozen_clock 1) []
                               [("topics", VStr "x")]) 2)
                   _ _ _ _ _)); vm_compute; reflexivity.
Defined.

Lemma sequence_dedup_witness :
  hashable (example_of [("example", VStr "A")]) = true
  /\ merge_loop (VList [entry "B"]) [VStr "B"]
       (VDict [("example", VStr "A")] :: [entry "A"; entry "B"])
     = (if set_mem (example_of [("example", VStr "A")]) [VStr "B"]
        then merge_loop (VList [entry "B"]) [VStr "B"] [entry "A"; entry "B"]
        else merge_loop (VList ([entry "B"] ++ [VDict [("example", VStr "A")]]))
               ([VStr "B"] ++ [example_of [("example", VStr "A")]])
               [entry "A"; entry "B"]).
Proof.
  split; [reflexivity |].
  exact (proj1 (sequence_dedup frozen_clock insertion_order
                  insertion_order_perm
                  [entry "B"] [VStr "B"] [("example", VStr "A")]
                  [entry "A"; entry "B"] eq_refl)).
Defined.

Lemma mapping_merge_witness :
  update frozen_clock insertion_order
    [("tone", VDict [("voice", VStr "direct"); ("formality", VStr "formal")])]
    []
    (holding (collection "2024-12-31" "2024-12-31" []
                [("tone", VDict [("formality", VStr "casual");
                                 ("pace", VStr "brisk")])]) 0)
  = (Ok (collection "2024-12-31" (frozen_clock 1) []
           [("tone", VDict [("formality", VStr "formal");
                            ("pace", VStr "brisk");
                            ("voice", VStr "direct")])]),
     holding (collection "2024-12-31" (frozen_clock 1) []
                [("tone", VDict [("formality", VStr "formal");
                                 ("pace", VStr "brisk");
                                 ("voice", VStr "direct")])]) 2)
  /\ exists p' merged,
       dict_get "patterns"
         (collection "2024-12-31" (frozen_clock 1) []
            [("tone", VDict [("formality", VStr "formal");
                             ("pace", VStr "brisk");
                             ("voice", VStr "direct")])])
       = Some (VDict p')
       /\ dict_get "tone" p' = Some (VDict merged)
       /\ forall a,
            dict_get a merged
            = match dict_get a [("voice", VStr "direct");
                                ("formality", VStr "formal")] with
              | Some v => Some v
              | None => dict_get a [("formality", VStr "casual");
                                    ("pace", VStr "brisk")]
              end.
Proof.
  split; [vm_compute; reflexivity |].
  refine (proj1 (mapping_merge frozen_clock insertion_order
                   insertion_order_perm
                   [("tone", VDict [("voice", VStr "direct");
                                    ("formality", VStr "formal")])]
                   []
                   (holding (collection "2024-12-31" "2024-12-31" []
                               [("tone", VDict [("formality", VStr "casual");
                                                ("pace", VStr "brisk")])]) 0)
                   (collection "2024-12-31" "2024-12-31" []
                      [("tone", VDict [("formality", VStr "casual");
                                       ("pace", VStr "brisk")])])
                   (holding (collection "2024-12-31" "2024-12-31" []
                               [("tone", VDict [("formality", VStr "casual");
                                                ("pace", VStr "brisk")])]) 0)
                   [("tone", VDict [("formality", VStr "casual");
                                    ("pace", VStr "brisk")])]
                   "tone"
                   [("formality", VStr "casual"); ("pace", VStr "brisk")]
                   [("voice", VStr "direct"); ("formality", VStr "formal")]
                   (collection "2024-12-31" (frozen_clock 1) []
                      [("tone", VDict [("formality", VStr "formal");
                                       ("pace", VStr "brisk");
                                       ("voice", VStr "direct")])])
                   (holding (collection "2024-12-31" (frozen_clock 1) []
                               [("tone", VDict [("formality", VStr "formal");
                                                ("pace", VStr "brisk");
                                                ("voice", VStr "direct")])]) 2)
                   _ _ _ _ _ _ _)); vm_compute; reflexivity.
Defined.

Lemma source_union_witness :
  update frozen_clock insertion_order [] ["a.md"; "b.md"]
    (holding (collection "2024-12-31" "2024-12-31" [VStr "a.md"] []) 0)
  = (Ok (collection "2024-12-31" (frozen_clock 1)
           [VStr "a.md"; VStr "b.md"] []),
     holding (collection "2024-12-31" (frozen_clock 1)
                [VStr "a.md"; VStr "b.md"] []) 2)
  /\ exists stored merged,
       dict_get_default "sources" (VList [])
         (collection "2024-12-31" "2024-12-31" [VStr "a.md"] [])
       = VList stored
       /\ dict_get "sources"
            (collection "2024-12-31" (frozen_clock 1)
               [VStr "a.md"; VStr "b.md"] [])
          = Some (VList merged)
       /\ NoDup merged
       /\ distinct merged = true
       /\ (forall id, In (VStr id) merged
                      <-> In (VStr id) stored \/ In id ["a.md"; "b.md"])
       /\ (forall x, In x merged ->
                     In x stored
                     \/ exists id, x = VStr id /\ In id ["a.md"; "b.md"]).
Proof.
  split; [vm_compute; reflexivity |].
  refine (proj1 (source_union frozen_clock insertion_order
                   insertion_order_perm [] ["a.md"; "b.md"]
                   (holding (collection "2024-12-31" "2024-12-31"
                               [VStr "a.md"] []) 0)
                   (collection "2024-12-31" "2024-12-31" [VStr "a.md"] [])
                   (holding (collection "2024-12-31" "2024-12-31"
                               [VStr "a.md"] []) 0)
                   (collection "2024-12-31" (frozen_clock 1)
                      [VStr "a.md"; VStr "b.md"] [])
                   (holding (collection "2024-12-31" (frozen_clock 1)
                               [VStr "a.md"; VStr "b.md"] []) 2)
                   _ _)); vm_compute; reflexivity.
Defined.

(** C6, as stated, fails.  A category stored for the first time is taken as
    given: from an empty store, [update({"hooks": [A, A, {}, {}]}, [])]
    returns a collection whose hooks hold two entries with the example
    ["A"] and two entries without an example. *)
Lemma first_store_keeps_duplicates :
  update frozen_clock insertion_order
    [("hooks", VList [entry "A"; entry "A"; VDict []; VDict []])] []
    (fresh 0)
  = (Ok (collection (frozen_clock 0) (frozen_clock 3) []
           [("hooks", VList [entry "A"; entry "A"; VDict []; VDict []])]),
     holding (collection (frozen_clock 0) (frozen_clock 3) []
                [("hooks",
                  VList [entry "A"; entry "A"; VDict []; VDict []])]) 4)
  /\ py_eq (example_of [("example", VStr "A")])
           (example_of [("example", VStr "A")]) = true
  /\ distinct (entry_keys [entry "A"; entry "A"; VDict []; VDict []]) = false
  /\ List.length (keyless [entry "A"; entry "A"; VDict []; VDict []]) = 2.
Proof. vm_compute. repeat split. Qed.

Lemma merge_keeps_keys_distinct_witness :
  update frozen_clock insertion_order
    [("hooks", VList [entry "A"; VDict []; entry "B"; entry "B"])] []
    (holding (collection "2024-12-31" "2024-12-31" []
                [("hooks", VList [entry "A"; VDict [("kind", VStr "q")]])])
       0)
  = (Ok (collection "2024-12-31" (frozen_clock 1) []
           [("hooks", VList [entry "A"; VDict [("kind", VStr "q")];
                             entry "B"])]),
     holding (collection "2024-12-31" (frozen_clock 1) []
                [("hooks", VList [entry "A"; VDict [("kind", VStr "q")];
                                  entry "B"])]) 2)
  /\ exists p' l',
       dict_get "patterns"
         (collection "2024-12-31" (frozen_clock 1) []
            [("hooks", VList [entry "A"; VDict [("kind", VStr "q")];
                              entry "B"])])
       = Some (VDict p')
       /\ dict_get "hooks" p' = Some (VList l')
       /\ distinct (entry_keys l') = true
       /\ List.length (keyless l') <= 1.
Proof.
  split; [vm_compute; reflexivity |].
  refine (merge_keeps_keys_distinct frozen_clock insertion_order
            [("hooks", VList [entry "A"; VDict []; entry "B"; entry "B"])] []
            (holding (collection "2024-12-31" "2024-12-31" []
                        [("hooks",
                          VList [entry "A"; VDict [("kind", VStr "q")]])]) 0)
            (collection "2024-12-31" "2024-12-31" []
               [("hooks", VList [entry "A"; VDict [("kind", VStr "q")]])])
            (holding (collection "2024-12-31" "2024-12-31" []
                        [("hooks",
                          VList [entry "A"; VDict [("kind", VStr "q")]])]) 0)
            [("hooks", VList [entry "A"; VDict [("kind", VStr "q")]])]
            "hooks"
            [entry "A"; VDict [("kind", VStr "q")]]
            [entry "A"; VDict []; entry "B"; entry "B"]
            (collection "2024-12-31" (frozen_clock 1) []
               [("hooks", VList [entry "A"; VDict [("kind", VStr "q")];
                                 entry "B"])])
            (holding (collection "2024-12-31" (frozen_clock 1) []
                        [("hooks", VList [entry "A";
                                          VDict [("kind", VStr "q")];
                                          entry "B"])]) 2)
            _ _ _ _ _ _ _); vm_compute; reflexivity.
Defined.



Lemma update_frame_witness :
  update frozen_clock insertion_order
    [("hooks", VList [entry "B"; entry "A"])] []
    (holding (collection "2024-12-31" "2024-12-31" []
                [("hooks", VList [entry "A"]); ("tone", VStr "warm")]) 0)
  = (Ok (collection "2024-12-31" (frozen_clock 1) []
           [("hooks", VList [entry "A"; entry "B"]); ("tone", VStr "warm")]),
     holding (collection "2024-12-31" (frozen_clock 1) []
                [("hooks", VList [entry "A"; entry "B"]);
                 ("tone", VStr "warm")]) 2)
  /\ exists p',
       dict_get "patterns"
         (collection "2024-12-31" (frozen_clock 1) []
            [("hooks", VList [entry "A"; entry "B"]); ("tone", VStr "warm")])
       = Some (VDict p')
       /\ (forall k,
             dict_has k [("hooks", VList [entry "B"; entry "A"])] = false ->
             dict_get k p'
             = dict_get k [("hooks", VList [entry "A"]);
                           ("tone", VStr "warm")])
       /\ (forall k,
             dict_has k [("hooks", VList [entry "A"]); ("tone", VStr "warm")]
             = true ->
             dict_has k p' = true)
       /\ (forall k l incoming,
             dict_get k [("hooks", VList [entry "A"]); ("tone", VStr "warm")]
             = Some (VList l) ->
             dict_get k [("hooks", VList [entry "B"; entry "A"])]
             = Some (VList incoming) ->
             exists ext,
               dict_get k p' = Some (VList (l ++ ext)) /\ incl ext incoming).
Proof.
  split; [vm_compute; reflexivity |].
  refine (update_frame frozen_clock insertion_order
            [("hooks", VList [entry "B"; entry "A"])] []
            (holding (collection "2024-12-31" "2024-12-31" []
                        [("hooks", VList [entry "A"]);
                         ("tone", VStr "warm")]) 0)
            (collection "2024-12-31" "2024-12-31" []
               [("hooks", VList [entry "A"]); ("tone", VStr "warm")])
            (holding (collection "2024-12-31" "2024-12-31" []
                        [("hooks", VList [entry "A"]);
                         ("tone", VStr "warm")]) 0)
            [("hooks", VList [entry "A"]); ("tone", VStr "warm")]
            (collection "2024-12-31" (frozen_clock 1) []
               [("hooks", VList [entry "A"; entry "B"]);
                ("tone", VStr "warm")])
            (holding (collection "2024-12-31" (frozen_clock 1) []
                        [("hooks", VList [entry "A"; entry "B"]);
                         ("tone", VStr "warm")]) 2)
            _ _ _ _); vm_compute; reflexivity.
Defined.

(** * Further properties of the store *)

Section StoreProperties.

Variable stamp : nat -> string.
Variable set_iter : nat -> list value -> list value.

Local Abbreviation now := (now stamp).
Local Abbreviation _empty_patterns := (_empty_patterns stamp).
Local Abbreviation load := (load stamp).
Local Abbreviation save := (save stamp).
Local Abbreviation clear := (clear stamp).
Local Abbreviation update := (update stamp set_iter).

Lemma dict_set_set {A} (k : string) (v1 v2 : A) d :
  dict_set k v2 (dict_set k v1 d) = dict_set k v2 d.
Proof.
  induction d as [| [k0 v0] d IH]; simpl.
  - now rewrite String.eqb_refl.
  - destruct (String.eqb k k0) eqn:E; simpl; rewrite E; [reflexivity |].
    now rewrite IH.
Qed.

Lemma load_file w v w1 : load w = (Ok v, w1) -> file w1 = file w.
Proof.
  destruct w as [[[d | raw] |] t]; intros E.
  - now inversion E.
  - discriminate E.
  - cbv in E. now inversion E.
Qed.

Lemma load_raise w e w1 : load w = (Raise e, w1) -> w1 = w.
Proof.
  destruct w as [[[d | raw] |] t]; intros E.
  - discriminate E.
  - now inversion E.
  - cbv in E. discriminate E.
Qed.

(** The collection a returning [update] builds, field by field. *)
Lemma update_result new sources w c' w' :
  update new sources w = (Ok c', w') ->
  exists c w1 merged patterns',
    load w = (Ok (VDict c), w1)
    /\ c' = dict_set "updated_at" (VStr (stamp (S (ticks w1))))
              (dict_set "patterns" patterns'
                 (dict_set "sources" (VList merged)
                    (dict_set "updated_at" (VStr (stamp (ticks w1))) c)))
    /\ w' = mkWorld (Some (Document (VDict c'))) (S (S (ticks w1))).
Proof.
  unfold PatternStore.update, bind. intros E.
  destruct (load w) as [[v | e] w1] eqn:L; [| discriminate E].
  destruct v as [| | | | | c]; cbn [PatternStore.now lift py_setitem] in E;
    try discriminate E.
  cbv beta in E.
  destruct (py_add_list _ _) as [all | e]; [| discriminate E].
  destruct (forallb hashable all); [| discriminate E].
  cbn [list_of_set ticks] in E.
  set (c2 := dict_set "sources" _ _) in E.
  set (c3 := if negb (dict_has "patterns" c2) then _ else _) in E.
  destruct (update_items _ new) as [patterns' | e]; [| discriminate E].
  unfold PatternStore.save, bind, PatternStore.now, write_json, ret in E.
  simpl in E. inversion E; subst c' w'; clear E.
  exists c, w1, (set_iter (S (ticks w1)) (py_set all)), patterns'.
  repeat split.
  unfold c3. destruct (negb (dict_has "patterns" c2)); [| reflexivity].
  now rewrite dict_set_set.
Qed.

(** X. [save] then [load]: whatever the backing file held, [load] reads
    back the dict [save] was given, with [updated_at] set to the clock
    reading [save] took and every other key as given. *)
Theorem save_then_load (patterns : dict) (w : world) :
  exists saved w',
    save patterns w = (Ok saved, w')
    /\ load w' = (Ok (VDict saved), w')
    /\ dict_get "updated_at" saved = Some (VStr (stamp (ticks w)))
    /\ forall k, k <> "updated_at" -> dict_get k saved = dict_get k patterns.
Proof.
  exists (dict_set "updated_at" (VStr (stamp (ticks w))) patterns),
         (mkWorld (Some (Document
                     (VDict (dict_set "updated_at" (VStr (stamp (ticks w)))
                               patterns))))
                  (S (ticks w))).
  repeat split.
  - apply dict_get_set_eq.
  - intros k N. apply dict_get_set_neq. congruence.
Qed.

(** X. A returning [update] has written what it returns: a [load] right
    after it reads back exactly the returned collection. *)
Theorem update_then_load new sources w c' w' :
  update new sources w = (Ok c', w') ->
  load w' = (Ok (VDict c'), w').
Proof.
  intros E.
  destruct (update_result _ _ _ _ _ E) as (c & w1 & m & p & _ & _ & ->).
  reflexivity.
Qed.

Lemma update_raise_file new sources w e w' :
  update new sources w = (Raise e, w') ->
  file w' = file w.
Proof.
  unfold PatternStore.update, bind. intros E.
  destruct (load w) as [[v | e0] w1] eqn:L.
  - pose proof (load_file _ _ _ L) as F.
    destruct v as [| | | | | c]; cbn [PatternStore.now lift py_setitem] in E;
      try (inversion E; subst; exact F).
    cbv beta in E.
    destruct (py_add_list _ _) as [all | e1];
      [| inversion E; subst; exact F].
    destruct (forallb hashable all); [| inversion E; subst; exact F].
    cbn [list_of_set ticks] in E.
    destruct (update_items _ new) as [patterns' | e1];
      [| inversion E; subst; exact F].
    unfold PatternStore.save, bind, PatternStore.now, write_json, ret in E.
    simpl in E. discriminate E.
  - inversion E; subst. now rewrite (load_raise _ _ _ L).
Qed.

(** X. An [update] that raises has not written: the backing file is what
    it was before the call. *)
Theorem update_failure_keeps_file new sources w e w' :
  update new sources w = (Raise e, w') ->
  file w' = file w.
Proof. apply update_raise_file. Qed.

(** X. [update] writes three root fields only: any other field of the
    stored document ([version], [created_at], anything else) reads the same
    afterwards, and a field that was missing is still missing. *)
Theorem update_root_frame new sources w c w1 c' w' :
  load w = (Ok (VDict c), w1) ->
  update new sources w = (Ok c', w') ->
  forall k, ~ In k update_writes -> dict_get k c' = dict_get k c.
Proof.
  intros L E k N.
  destruct (update_result _ _ _ _ _ E) as (c0 & w0 & m & p & L0 & -> & _).
  rewrite L in L0. inversion L0; subst c0 w0; clear L0.
  unfold update_writes in N. simpl in N.
  rewrite !dict_get_set_neq; [reflexivity | | | |];
    intros <-; apply N; auto.
Qed.

Lemma subseq_nil {A} (l : list A) : subseq [] l.
Proof. induction l; simpl; auto. Qed.

Lemma subseq_length {A} (s l : list A) :
  subseq s l -> List.length s <= List.length l.
Proof.
  revert s. induction l as [| y l IH]; intros s H; simpl in H.
  - subst. simpl. lia.
  - destruct H as [H | H].
    + specialize (IH _ H). simpl. lia.
    + destruct s as [| x s]; [contradiction |].
      destruct H as [_ H]. specialize (IH _ H). simpl. lia.
Qed.

Lemma merge_loop_subseq new : forall l seen r,
  merge_loop (VList l) seen new = Ok r ->
  exists ext, r = VList (l ++ ext) /\ subseq ext new.
Proof.
  induction new as [| item new IH]; intros l seen r E.
  - simpl in E. inversion E. exists []. now rewrite app_nil_r.
  - assert (step : forall seen',
      (merge_loop (VList l) seen new = Ok r
       \/ merge_loop (VList (l ++ [item])) seen' new = Ok r) ->
      exists ext, r = VList (l ++ ext) /\ subseq ext (item :: new)).
    { intros seen' [E' | E'].
      - destruct (IH _ _ _ E') as (ext & -> & S).
        exists ext. split; [reflexivity |]. simpl. now left.
      - destruct (IH _ _ _ E') as (ext & -> & S).
        exists (item :: ext). rewrite <- app_assoc. split; [reflexivity |].
        simpl. right. auto. }
    destruct item as [| b | n | s | k | d]; cbn [merge_loop py_in obind] in E;
      try (destruct (existsb _ l); cbn [negb py_append obind] in E;
           apply (step seen); auto).
    destruct (hashable (example_of d)); [| discriminate E].
    destruct (set_mem (example_of d) seen); cbn [negb py_append obind] in E.
    + apply (step seen). auto.
    + apply (step (set_add seen (example_of d))). auto.
Qed.

(** X. A sequence merge appends in the incoming order: the merged
    sequence is the stored one followed by some of the incoming items, in
    the order they came in, so it grows by at most the length of the
    incoming sequence. *)
Theorem merge_appends_in_order l new r :
  _merge_lists (VList l) new = Ok r ->
  exists ext,
    r = VList (l ++ ext)
    /\ subseq ext new
    /\ List.length l <= List.length (l ++ ext)
       <= List.length l + List.length new.
Proof.
  unfold _merge_lists. cbn [initial_seen]. intros E.
  destruct (seen_keys l []) as [seen | e]; [| discriminate E].
  cbn [obind] in E.
  destruct (merge_loop_subseq _ _ _ _ E) as (ext & -> & S).
  exists ext. repeat split; auto.
  - rewrite length_app. lia.
  - rewrite length_app. pose proof (subseq_length _ _ S). lia.
Qed.

(** X. A sequence merge loses nothing incoming: once it returns, every
    incoming item that is not a dict is [in] the merged sequence, and the
    [example] key of every incoming dict entry is the key of an entry of
    the merged sequence. *)
Theorem merge_covers_incoming l new r :
  Forall (fun x => wf_value x = true) new ->
  _merge_lists (VList l) new = Ok (VList r) ->
  forall item, In item new ->
    match item with
    | VDict d => set_mem (example_of d) (entry_keys r) = true
    | _ => py_in item (VList r) = Ok true
    end.
Proof.
  intros W E item I.
  destruct (merge_lists_list _ _ _ E) as (ext & R & _ & _ & _ & _ & _ & S).
  inversion R; subst r; clear R.
  specialize (S W). rewrite Forall_forall in S. specialize (S _ I).
  destruct item as [| b | n | s | k | d]; cbn [py_in];
    try (unfold settled in S; now rewrite S).
  destruct S as [Hk C]. now apply set_mem_class.
Qed.

Lemma merge_lists_not_iterable v new :
  not_iterable v = true -> _merge_lists v new = Raise TypeError.
Proof. destruct v; simpl; intros H; try discriminate H; reflexivity. Qed.

(** X. A sequence cannot be merged into a stored [None], [bool] or [int]:
    when a category holds such a value and the incoming value is a list
    (even an empty one), [update] raises and the file stays as it was. *)
Theorem update_list_over_scalar new sources w c w1 p key v items :
  unique_keys new = true ->
  load w = (Ok (VDict c), w1) ->
  dict_get "patterns" c = Some (VDict p) ->
  dict_get key p = Some v ->
  not_iterable v = true ->
  dict_get key new = Some (VList items) ->
  exists e w',
    update new sources w = (Raise e, w') /\ file w' = file w.
Proof.
  intros U L P G NI N.
  destruct (update new sources w) as [[c' | e] w'] eqn:E.
  - exfalso.
    destruct (update_categories _ _ _ _ _ _ _ _ _ _ U L P E)
      as (p' & _ & _ & B & _).
    destruct (B key _ N) as (x & Cx & _).
    rewrite G in Cx. cbn [category_merge] in Cx.
    rewrite (merge_lists_not_iterable _ _ NI) in Cx. discriminate Cx.
  - exists e, w'. split; [reflexivity |].
    exact (update_raise_file _ _ _ _ _ E).
Qed.

Section SummaryProperties.

Variable format_container : value -> string.

Local Abbreviation summarize := (summarize format_container).
Local Abbreviation get_summary := (get_summary stamp format_container).

Lemma get_summary_stored w c :
  file w = Some (Document (VDict c)) ->
  get_summary w = (summarize (VDict c), w).
Proof.
  intros F. unfold PatternStore.get_summary, bind, lift.
  now rewrite (load_stored _ _ _ F).
Qed.

(** X. Reading never writes.  [load], [get_summary] and [load_patterns]
    leave the backing file as it was; on a missing file [load] returns the
    scaffold without creating the file, and with a file in place [load] and
    [get_summary] leave the whole world untouched, as [load_patterns] always
    does. *)
Theorem reads_never_write w path :
  file (snd (load w)) = file w
  /\ file (snd (get_summary w)) = file w
  /\ snd (PostWriter.load_patterns path w) = w
  /\ match file w with
     | None => file (snd (load w)) = None
     | Some _ => snd (load w) = w /\ snd (get_summary w) = w
     end.
Proof.
  assert (LP : snd (PostWriter.load_patterns path w) = w).
  { unfold PostWriter.load_patterns, lift.
    destruct (file w) as [[v | raw] |]; reflexivity. }
  destruct w as [[[v | raw] |] t];
    (split; [reflexivity | split; [reflexivity | split; [exact LP |]]]);
    cbn [file]; try (split; reflexivity); reflexivity.
Qed.

Lemma summary_line_set_other p name render k v :
  k <> name ->
  summary_line (VDict (dict_set k v p)) name render
  = summary_line (VDict p) name render.
Proof.
  intros N. unfold summary_line. cbn [py_in hashable obind py_getitem].
  unfold dict_has. now rewrite dict_get_set_neq.
Qed.

Lemma dict_set_nonempty {A} k (v : A) d : dict_set k v d <> [].
Proof. destruct d as [| [k0 v0] d]; simpl; [| destruct (String.eqb k k0)]; discriminate. Qed.

(** X. The summary reads five topics at most: when [topics] is a list,
    [get_summary] returns (or raises) the same as it does with the list cut
    to its first five items, so a sixth or later item never shows and is
    never the cause of an error. *)
Theorem summary_reads_five_topics c p topics :
  dict_get "patterns" c = Some (VDict p) ->
  dict_get "topics" p = Some (VList topics) ->
  summarize (VDict c)
  = summarize (VDict (dict_set "patterns"
                        (VDict (dict_set "topics" (VList (firstn 5 topics)) p))
                        c)).
Proof.
  intros P T.
  assert (NE : p <> []) by (intros ->; discriminate T).
  unfold PatternStore.summarize, dict_get_default.
  rewrite dict_get_set_eq, P.
  assert (Tp : truthy (VDict p) = true).
  { destruct p; [contradiction | reflexivity]. }
  assert (Ts : truthy (VDict (dict_set "topics" (VList (firstn 5 topics)) p))
               = true).
  { pose proof (dict_set_nonempty "topics" (VList (firstn 5 topics)) p).
    destruct (dict_set "topics" (VList (firstn 5 topics)) p);
      [contradiction | reflexivity]. }
  rewrite Tp, Ts. cbn [negb].
  assert (H : summary_header format_container
                (dict_set "patterns"
                   (VDict (dict_set "topics" (VList (firstn 5 topics)) p)) c)
              = summary_header format_container c).
  { unfold summary_header, dict_get_default.
    now rewrite !dict_get_set_neq by discriminate. }
  rewrite H.
  rewrite !summary_line_set_other by discriminate.
  assert (L : summary_line
                (VDict (dict_set "topics" (VList (firstn 5 topics)) p))
                "topics" topics_line
              = summary_line (VDict p) "topics" topics_line).
  { rewrite (summary_line_present _ _ _ _ T).
    rewrite (summary_line_present _ _ _ (VList (firstn 5 topics)))
      by apply dict_get_set_eq.
    unfold topics_line, join_first5.
    now rewrite firstn_firstn. }
  rewrite L. reflexivity.
Qed.

(** X. After an [update] that returns and was given at least one
    category, the store has something to summarize: [get_summary] does not
    return [None], and [load_patterns] reports success with the stored
    patterns. *)
Theorem update_makes_patterns_visible new sources w c' w' path :
  unique_keys new = true ->
  new <> [] ->
  update new sources w = (Ok c', w') ->
  fst (get_summary w') <> Ok None
  /\ exists r p',
       PostWriter.load_patterns path w' = (Ok r, w')
       /\ dict_get "success" r = Some (VBool true)
       /\ dict_get "patterns" c' = Some (VDict p')
       /\ dict_get "patterns" r = Some (VDict p').
Proof.
  intros U NE E.
  destruct new as [| [k v] new']; [contradiction |].
  assert (K : dict_get k ((k, v) :: new') = Some v).
  { simpl. now rewrite String.eqb_refl. }
  destruct (update_categories_any _ _ _ _ _ _ _ _ _ U K E)
    as (p & p' & G & x & _ & Gx).
  assert (Tp : truthy (VDict p') = true).
  { destruct p'; [discriminate Gx | reflexivity]. }
  destruct (update_result _ _ _ _ _ E) as (c0 & w1 & m & ps & _ & _ & W).
  assert (F : file w' = Some (Document (VDict c'))) by now subst w'.
  split.
  - rewrite (get_summary_stored _ _ F). cbn [fst].
    unfold PatternStore.summarize, dict_get_default. rewrite G, Tp.
    cbn [negb].
    destruct (summary_header format_container c'); cbn [obind];
      [| discriminate].
    repeat match goal with
           | |- context [summary_line ?a ?b ?r] =>
               destruct (summary_line a b r); cbn [obind]; [| discriminate]
           end.
    discriminate.
  - unfold PostWriter.load_patterns. rewrite F. unfold lift.
    cbn [PostWriter.py_get obind]. unfold dict_get_default. rewrite G, Tp.
    cbn [negb obind].
    eexists. exists p'. split; [reflexivity |].
    split; [reflexivity |]. split; reflexivity.
Qed.

(** X. The two readers agree on whether anything was learned:
    [get_summary] returns [None] exactly when [load_patterns] returns a
    report whose [success] is [False]; in every other case [load_patterns]
    reports success or both raise. *)
Theorem summary_none_iff_load_patterns_fails w path :
  fst (get_summary w) = Ok None
  <-> exists r,
        fst (PostWriter.load_patterns path w) = Ok r
        /\ dict_get "success" r = Some (VBool false).
Proof.
  destruct w as [[[v | raw] |] t].
  - unfold PatternStore.get_summary, bind, lift, PostWriter.load_patterns.
    cbn [PatternStore.load file fst].
    destruct v as [| | | | | c];
      try (split; [discriminate | intros (r & E & _); discriminate E]).
    cbn [PatternStore.summarize PostWriter.py_get obind].
    unfold dict_get_default.
    destruct (dict_get "patterns" c) as [pv |].
    + destruct (truthy pv) eqn:T; cbn [negb obind].
      * split.
        -- intros E.
           destruct (summary_header format_container c); cbn [obind] in E;
             [| discriminate E].
           repeat match type of E with
                  | context [summary_line ?a ?b ?r] =>
                      destruct (summary_line a b r); cbn [obind] in E;
                      [| discriminate E]
                  end.
           discriminate E.
        -- intros (r & E & S). inversion E; subst r. discriminate S.
      * split; [| reflexivity]. intros _. eexists. split; reflexivity.
    + cbn [truthy negb obind].
      split; [| reflexivity]. intros _. eexists. split; reflexivity.
  - split; [discriminate | intros (r & E & _); discriminate E].
  - split; [| reflexivity]. intros _. eexists. split; reflexivity.
Qed.

(** X. After [clear] nothing is left to read: whatever the store held,
    [get_summary] then returns [None] and [load_patterns] reports that the
    file exists but is empty. *)
Theorem clear_hides_patterns w path :
  fst (get_summary (snd (clear w))) = Ok None
  /\ fst (PostWriter.load_patterns path (snd (clear w)))
     = Ok [("success", VBool false);
           ("patterns", VNone);
           ("message",
            VStr "Patterns file exists but is empty. Run 'learn' to extract patterns.")].
Proof. split; reflexivity. Qed.

End SummaryProperties.

(** ** The pattern tools of [post_writer.py] *)

Local Abbreviation save_patterns := (PostWriter.save_patterns stamp).


Lemma save_patterns_inv path patterns w r w' :
  save_patterns path patterns w = (Ok r, w') ->
  exists c p,
    PostWriter.existing_document w = (Ok (VDict c), w)
    /\ dict_get_default "patterns" (VDict []) c = VDict p
    /\ w' = mkWorld
              (Some (Document (VDict
                 (dict_set "patterns" (VDict (dict_update p patterns))
                    (dict_set "updated_at" (VStr (stamp (ticks w))) c)))))
              (S (ticks w)).
Proof.
  unfold PostWriter.save_patterns, bind. intros E.
  destruct (PostWriter.existing_document w) as [[v | e] w0] eqn:X;
    [| discriminate E].
  assert (w0 = w).
  { unfold PostWriter.existing_document in X.
    destruct (file w) as [[d | raw] |]; now inversion X. }
  subst w0.
  destruct v as [| | | | | c]; cbn [PatternStore.now lift py_setitem] in E;
    try discriminate E.
  cbv beta in E. cbn [py_in hashable] in E. cbv beta iota in E.
  rewrite dict_has_set in E. cbn [String.eqb Ascii.eqb Bool.eqb orb] in E.
  exists c. unfold dict_get_default.
  destruct (dict_has "patterns" c) eqn:H; cbn [negb py_setitem] in E;
    cbv beta iota in E; cbn [py_getitem] in E;
    unfold dict_has in H.
  - rewrite dict_get_set_neq in E by discriminate.
    destruct (dict_get "patterns" c) as [v |]; [| discriminate H].
    destruct v as [| | | | | p]; cbn [py_update] in E; try discriminate E.
    cbv beta iota in E. cbn [py_setitem write_json ret] in E.
    exists p. inversion E. repeat split.
  - rewrite dict_get_set_eq in E.
    destruct (dict_get "patterns" c) as [v |]; [discriminate H |].
    cbn [py_update] in E. cbv beta iota in E.
    cbn [py_setitem write_json ret] in E. rewrite dict_set_set in E.
    exists []. inversion E. repeat split.
Qed.

Lemma save_patterns_run path patterns w c p :
  PostWriter.existing_document w = (Ok (VDict c), w) ->
  dict_get_default "patterns" (VDict []) c = VDict p ->
  save_patterns path patterns w
  = (Ok [("success", VBool true);
         ("file_path", VStr path);
         ("message", VStr (String.append "Patterns saved to " path))],
     mkWorld
       (Some (Document (VDict
          (dict_set "patterns" (VDict (dict_update p patterns))
             (dict_set "updated_at" (VStr (stamp (ticks w))) c)))))
       (S (ticks w))).
Proof.
  intros X D. unfold PostWriter.save_patterns, bind. rewrite X.
  cbn [PatternStore.now lift py_setitem]. cbv beta.
  cbn [py_in hashable]. cbv beta iota.
  rewrite dict_has_set. cbn [String.eqb Ascii.eqb Bool.eqb orb].
  unfold dict_get_default in D. unfold dict_has.
  destruct (dict_get "patterns" c) as [v |] eqn:G; cbn [negb py_setitem];
    cbv beta iota; cbn [py_getitem].
  - rewrite dict_get_set_neq by discriminate. rewrite G. subst v.
    cbn [py_update]. cbv beta iota. reflexivity.
  - rewrite dict_get_set_eq. inversion D; subst p.
    cbn [py_update]. cbv beta iota. cbn [py_setitem write_json ret].
    now rewrite dict_set_set.
Qed.

Lemma existing_document_stored w c :
  file w = Some (Document (VDict c)) ->
  PostWriter.existing_document w = (Ok (VDict c), w).
Proof. intros F. unfold PostWriter.existing_document. now rewrite F. Qed.

Lemma existing_document_kept w v w0 :
  PostWriter.existing_document w = (v, w0) -> w0 = w.
Proof.
  unfold PostWriter.existing_document.
  destruct (file w) as [[d | raw] |]; intros E; now inversion E.
Qed.

(** X. [save_patterns] overwrites category by category.  With a stored
    document whose patterns value is a dict, every category given is set to
    the given value (a stored sequence is replaced, not merged), every other
    category keeps its value, and no root field other than [updated_at] and
    [patterns] is touched, [sources] included. *)
Theorem save_patterns_overwrites path patterns w c p :
  unique_keys patterns = true ->
  file w = Some (Document (VDict c)) ->
  dict_get "patterns" c = Some (VDict p) ->
  exists r w' c' p',
    save_patterns path patterns w = (Ok r, w')
    /\ file w' = Some (Document (VDict c'))
    /\ dict_get "patterns" c' = Some (VDict p')
    /\ (forall k,
          dict_get k p'
          = match dict_get k patterns with
            | Some v => Some v
            | None => dict_get k p
            end)
    /\ (forall k, k <> "updated_at" -> k <> "patterns" ->
                  dict_get k c' = dict_get k c).
Proof.
  intros U F P.
  assert (D : dict_get_default "patterns" (VDict []) c = VDict p).
  { unfold dict_get_default. now rewrite P. }
  do 2 eexists.
  exists (dict_set "patterns" (VDict (dict_update p patterns))
            (dict_set "updated_at" (VStr (stamp (ticks w))) c)),
         (dict_update p patterns).
  split; [exact (save_patterns_run path patterns w c p
                   (existing_document_stored _ _ F) D) |].
  split; [reflexivity |]. split; [apply dict_get_set_eq |]. split.
  - intros k. now apply dict_get_update.
  - intros k N1 N2. rewrite !dict_get_set_neq; congruence.
Qed.

(** X. On a missing file [save_patterns] starts from an empty document:
    the file it writes has the two fields [updated_at] and [patterns] and
    nothing else (no [version], [created_at] or [sources]), with the given
    categories as the patterns. *)
Theorem save_patterns_on_missing_file path patterns w :
  unique_keys patterns = true ->
  file w = None ->
  exists r w' p',
    save_patterns path patterns w = (Ok r, w')
    /\ file w' = Some (Document (VDict
                   [("updated_at", VStr (stamp (ticks w)));
                    ("patterns", VDict p')]))
    /\ forall k, dict_get k p' = dict_get k patterns.
Proof.
  intros U F.
  assert (X : PostWriter.existing_document w = (Ok (VDict []), w)).
  { unfold PostWriter.existing_document. now rewrite F. }
  do 2 eexists. exists (dict_update [] patterns).
  split; [exact (save_patterns_run path patterns w [] [] X eq_refl) |].
  split; [reflexivity |].
  intros k. rewrite (dict_get_update [] patterns k U).
  now destruct (dict_get k patterns).
Qed.

Lemma save_patterns_raise_file path patterns w e w' :
  save_patterns path patterns w = (Raise e, w') -> file w' = file w.
Proof.
  unfold PostWriter.save_patterns, bind. intros E.
  destruct (PostWriter.existing_document w) as [[v | e0] w0] eqn:X;
    pose proof (existing_document_kept _ _ _ X); subst w0;
    [| now inversion E].
  destruct v as [| | | | | c]; cbn [PatternStore.now lift py_setitem] in E;
    try (now inversion E).
  cbv beta in E. cbn [py_in hashable] in E. cbv beta iota in E.
  destruct (negb (dict_has "patterns" _)); cbn [py_setitem] in E;
    cbv beta iota in E; cbn [py_getitem] in E.
  - rewrite dict_get_set_eq in E. cbn [py_update] in E. cbv beta iota in E.
    cbn [py_setitem write_json ret] in E. discriminate E.
  - destruct (dict_get "patterns" _) as [v |]; [| now inversion E].
    destruct v; cbn [py_update] in E; now inversion E.
Qed.

(** X. When [save_patterns] fails.  It raises exactly when the file holds
    text that does not parse, a document that is not a dict, or a dict whose
    [patterns] value is not a dict; and when it raises, the file is left as
    it was. *)
Theorem save_patterns_failure path patterns w :
  ((exists e, fst (save_patterns path patterns w) = Raise e)
   <-> match file w with
       | None => False
       | Some (Garbage _) => True
       | Some (Document (VDict c)) =>
           match dict_get "patterns" c with
           | Some v => is_dict v = false
           | None => False
           end
       | Some (Document _) => True
       end)
  /\ match fst (save_patterns path patterns w) with
     | Raise _ => file (snd (save_patterns path patterns w)) = file w
     | Ok _ => True
     end.
Proof.
  split.
  2:{ destruct (save_patterns path patterns w) as [[r | e] w'] eqn:E;
        cbn [fst snd]; [exact I |].
      exact (save_patterns_raise_file _ _ _ _ _ E). }
  destruct (file w) as [[v | raw] |] eqn:F.
  - destruct v as [| | | | | c];
      try (split; [auto |]; intros _; eexists;
           unfold PostWriter.save_patterns, bind,
             PostWriter.existing_document;
           rewrite F; reflexivity).
    destruct (dict_get "patterns" c) as [v |] eqn:G.
    + destruct v as [| | | | | p];
        try (split; [auto |]; intros _; eexists;
             unfold PostWriter.save_patterns, bind,
               PostWriter.existing_document;
             rewrite F; cbn [PatternStore.now lift py_setitem]; cbv beta;
             cbn [py_in hashable]; cbv beta iota;
             rewrite dict_has_set; unfold dict_has;
             cbn [String.eqb Ascii.eqb Bool.eqb orb]; rewrite G;
             cbn [negb py_getitem]; cbv beta iota;
             rewrite dict_get_set_neq by discriminate; rewrite G;
             reflexivity).
      rewrite (save_patterns_run path patterns w c p
                 (existing_document_stored _ _ F)).
      * simpl. split; [intros [e E]; discriminate E | discriminate].
      * unfold dict_get_default. now rewrite G.
    + rewrite (save_patterns_run path patterns w c []
                 (existing_document_stored _ _ F)).
      * simpl. split; [intros [e E]; discriminate E | contradiction].
      * unfold dict_get_default. now rewrite G.
  - split; [auto |]. intros _. eexists.
    unfold PostWriter.save_patterns, bind, PostWriter.existing_document.
    rewrite F. reflexivity.
  - rewrite (save_patterns_run path patterns w [] []).
    + simpl. split; [intros [e E]; discriminate E | contradiction].
    + unfold PostWriter.existing_document. now rewrite F.
    + reflexivity.
Qed.

(** X. [save_patterns] then [load_patterns]: after a [save_patterns] that
    returned and was given at least one category, [load_patterns] reports
    success and hands back patterns in which every given category has the
    given value. *)
Theorem save_then_load_patterns path patterns w r w' :
  unique_keys patterns = true ->
  patterns <> [] ->
  save_patterns path patterns w = (Ok r, w') ->
  exists r' p',
    PostWriter.load_patterns path w' = (Ok r', w')
    /\ dict_get "success" r' = Some (VBool true)
    /\ dict_get "patterns" r' = Some (VDict p')
    /\ dict_get "updated_at" r' = Some (VStr (stamp (ticks w)))
    /\ forall k v, dict_get k patterns = Some v -> dict_get k p' = Some v.
Proof.
  intros U NE E.
  destruct (save_patterns_inv _ _ _ _ _ E) as (c & p & _ & _ & ->).
  assert (K : forall k v, dict_get k patterns = Some v ->
                          dict_get k (dict_update p patterns) = Some v).
  { intros k v G. now rewrite (dict_get_update p patterns k U), G. }
  assert (T : truthy (VDict (dict_update p patterns)) = true).
  { destruct patterns as [| [k v] rest]; [contradiction |].
    assert (G : dict_get k ((k, v) :: rest) = Some v).
    { simpl. now rewrite String.eqb_refl. }
    specialize (K _ _ G).
    destruct (dict_update p ((k, v) :: rest)); [discriminate K | reflexivity]. }
  unfold PostWriter.load_patterns. cbn [file]. unfold lift.
  cbn [PostWriter.py_get obind]. unfold dict_get_default.
  rewrite dict_get_set_eq, T. cbn [negb obind].
  rewrite dict_get_set_neq by discriminate. rewrite dict_get_set_eq.
  eexists. exists (dict_update p patterns).
  split; [reflexivity |]. repeat split. exact K.
Qed.

End StoreProperties.

(** * Properties of the text tools *)

Lemma append_assoc (a b c : string) :
  String.append (String.append a b) c = String.append a (String.append b c).
Proof. induction a; simpl; congruence. Qed.

Lemma append_length (a b : string) :
  String.length (String.append a b) = String.length a + String.length b.
Proof. induction a; simpl; congruence. Qed.

Lemma take_length n s : String.length (take n s) <= n.
Proof.
  revert s. induction n as [| n IH]; intros s; simpl; [lia |].
  destruct s; simpl; [lia |]. specialize (IH s). lia.
Qed.

Lemma take_short n s : String.length s <= n -> take n s = s.
Proof.
  revert s. induction n as [| n IH]; intros s H.
  - destruct s; [reflexivity | simpl in H; lia].
  - destruct s; simpl; [reflexivity |]. simpl in H. rewrite IH; [reflexivity | lia].
Qed.

Lemma take_In n s c :
  In c (list_ascii_of_string (take n s)) -> In c (list_ascii_of_string s).
Proof.
  revert s. induction n as [| n IH]; intros s; simpl; [tauto |].
  destruct s; simpl; [tauto |]. intros [H | H]; auto.
Qed.

Lemma take_append n a b :
  String.length a = n -> take n (String.append a b) = a.
Proof.
  revert a. induction n as [| n IH]; intros a H.
  - destruct a; [reflexivity | discriminate H].
  - destruct a; [discriminate H |]. simpl in *. rewrite IH; [reflexivity | lia].
Qed.

Lemma take_take_length n s :
  n <= String.length s -> String.length (take n s) = n.
Proof.
  revert s. induction n as [| n IH]; intros s H; [reflexivity |].
  destruct s; simpl in *; [lia |]. rewrite IH; lia.
Qed.

Lemma replace_char_no_source a b s :
  a <> b -> ~ In a (list_ascii_of_string (replace_char a b s)).
Proof.
  intros N. induction s as [| c s IH]; simpl; [tauto |].
  intros [H | H]; [| exact (IH H)].
  destruct (Ascii.eqb c a) eqn:E.
  - congruence.
  - apply Ascii.eqb_neq in E. congruence.
Qed.

Lemma lower_char_idem c : lower_char (lower_char c) = lower_char c.
Proof.
  destruct c as [[] [] [] [] [] [] [] []]; reflexivity.
Qed.

Lemma lower_char_space c :
  Ascii.eqb (lower_char c) " " = Ascii.eqb c " ".
Proof.
  destruct c as [[] [] [] [] [] [] [] []]; reflexivity.
Qed.

Lemma lower_take n s : lower (take n s) = take n (lower s).
Proof.
  revert s. induction n as [| n IH]; intros s; [now destruct s |].
  destruct s; simpl; [reflexivity |]. now rewrite IH.
Qed.

Lemma lower_idem s : lower (lower s) = lower s.
Proof. induction s; simpl; [reflexivity |]. now rewrite lower_char_idem, IHs. Qed.

Lemma lower_replace_space s :
  lower (replace_char " " "_" (lower s)) = replace_char " " "_" (lower s).
Proof.
  induction s as [| c s IH]; simpl; [reflexivity |].
  rewrite IH. f_equal.
  destruct (Ascii.eqb (lower_char c) " "); [reflexivity |].
  apply lower_char_idem.
Qed.

(** X. The slug [write_post] puts in the file name has at most 30
    characters, contains no space, and has no capital letter left
    (lower-casing it again changes nothing). *)
Theorem slug_is_short_and_lowercase title :
  String.length (PostWriter.slug title) <= 30
  /\ ~ In " "%char (list_ascii_of_string (PostWriter.slug title))
  /\ lower (PostWriter.slug title) = PostWriter.slug title.
Proof.
  unfold PostWriter.slug. destruct (given title) as [t |].
  - split; [apply take_length | split].
    + intros H. apply take_In in H.
      revert H. apply replace_char_no_source. discriminate.
    + now rewrite lower_take, lower_replace_space.
  - split; [simpl; lia | split; [| reflexivity]].
    simpl. intros H. repeat destruct H as [H | H]; try discriminate H. exact H.
Qed.

Lemma drop_space_append a b :
  drop_space (String.append a b)
  = String.append (drop_space a) (drop_space b).
Proof.
  induction a as [| c a IH]; simpl; [reflexivity |].
  destruct (is_space c); simpl; now rewrite IH.
Qed.

Lemma words_from_spec s : forall word,
  drop_space word = word ->
  Forall (fun w => w <> EmptyString /\ drop_space w = w) (words_from word s)
  /\ String.concat EmptyString (words_from word s)
     = String.append word (drop_space s)
  /\ (words_from word s = []
      <-> word = EmptyString /\ all_space s = true).
Proof.
  induction s as [| c s IH]; intros word W.
  - cbn [words_from drop_space all_space]. destruct word as [| x word].
    + split; [constructor | split; [reflexivity |]].
      split; auto.
    + split; [| split].
      * constructor; [split; [discriminate | exact W] | constructor].
      * simpl. now rewrite append_empty.
      * split; [discriminate | intros [H _]; discriminate H].
  - cbn [words_from drop_space all_space].
    destruct (is_space c) eqn:Sp.
    + destruct (IH EmptyString eq_refl) as (F & C & Z).
      destruct word as [| x word].
      * split; [exact F | split; [exact C |]].
        cbn [andb]. split.
        -- intros H. apply Z in H. tauto.
        -- intros [_ H]. apply Z. auto.
      * split; [| split].
        -- constructor; [split; [discriminate | exact W] | exact F].
        -- cbn [String.concat].
           destruct (words_from EmptyString s) eqn:Ws.
           ++ simpl in C. rewrite <- C. simpl. now rewrite append_empty.
           ++ rewrite C. reflexivity.
        -- split; [discriminate | intros [H _]; discriminate H].
    + assert (W' : drop_space (String.append word (String c EmptyString))
                   = String.append word (String c EmptyString)).
      { rewrite drop_space_append, W. simpl. now rewrite Sp. }
      destruct (IH _ W') as (F & C & Z).
      split; [exact F | split].
      * rewrite C, append_assoc. reflexivity.
      * cbn [andb]. split.
        -- intros H. apply Z in H. destruct H as [H _].
           destruct word; discriminate H.
        -- intros [_ H]. discriminate H.
Qed.


Lemma lstrip_all_space a : all_space a = true -> lstrip a = EmptyString.
Proof.
  induction a as [| c a IH]; simpl; [reflexivity |].
  intros H. apply andb_prop in H. destruct H as [Hc Ha]. now rewrite Hc, IH.
Qed.

Lemma rstrip_all_space b : all_space b = true -> rstrip b = EmptyString.
Proof.
  induction b as [| c b IH]; simpl; [reflexivity |].
  intros H. apply andb_prop in H. destruct H as [Hc Hb]. now rewrite IH, Hc.
Qed.

Lemma lstrip_pad a s :
  all_space a = true -> lstrip (String.append a s) = lstrip s.
Proof.
  induction a as [| c a IH]; simpl; [reflexivity |].
  intros H. apply andb_prop in H. destruct H as [Hc Ha]. now rewrite Hc, IH.
Qed.

Lemma rstrip_pad s b :
  all_space b = true -> rstrip (String.append s b) = rstrip s.
Proof.
  intros H. induction s as [| c s IH]; simpl.
  - now apply rstrip_all_space.
  - now rewrite IH.
Qed.

Lemma strip_pad_right s b :
  all_space b = true -> strip (String.append s b) = strip s.
Proof.
  intros H. unfold strip. induction s as [| c s IH]; simpl.
  - now rewrite (lstrip_all_space b H).
  - destruct (is_space c); [exact IH |].
    exact (rstrip_pad (String c s) b H).
Qed.

Lemma strip_pad a s b :
  all_space a = true -> all_space b = true ->
  strip (String.append a (String.append s b)) = strip s.
Proof.
  intros Ha Hb. unfold strip. rewrite (lstrip_pad a _ Ha).
  exact (strip_pad_right s b Hb).
Qed.

(** X. Whitespace around the code never reaches the output of
    [format_code_snippet]: the code padded with whitespace on either side
    gives the same formatted block, LinkedIn text and line count as the
    code itself. *)
Theorem format_ignores_padding file_path before code after language title :
  all_space before = true ->
  all_space after = true ->
  CodeFormatter.format_code_snippet file_path
    (String.append before (String.append code after)) language title
  = CodeFormatter.format_code_snippet file_path code language title.
Proof.
  intros Hb Ha. unfold CodeFormatter.format_code_snippet.
  now rewrite (strip_pad before code after Hb Ha).
Qed.

Lemma pieces_from_length sep s : forall piece,
  List.length (pieces_from sep piece s) = 1 + count_char sep s.
Proof.
  induction s as [| c s IH]; intros piece; simpl; [reflexivity |].
  destruct (Ascii.eqb c sep); simpl; now rewrite IH.
Qed.

(** X. The line count [format_code_snippet] reports is one more than the
    number of line breaks in the stripped code: it is at least 1, also for
    empty code, and blank lines before or after the code do not count. *)
Theorem line_count_is_breaks_plus_one file_path code language title :
  dict_get "line_count"
    (CodeFormatter.format_code_snippet file_path code language title)
  = Some (VInt (Z.of_nat (1 + count_char (ascii_of_nat 10) (strip code)))).
Proof.
  unfold CodeFormatter.format_code_snippet, split_on. cbn [dict_get String.eqb Ascii.eqb Bool.eqb].
  now rewrite pieces_from_length.
Qed.

Lemma dict_set_absent {A} k (v : A) d :
  dict_has k d = false -> dict_set k v d = d ++ [(k, v)].
Proof.
  unfold dict_has. induction d as [| [k0 v0] d IH]; simpl; [reflexivity |].
  destruct (String.eqb k k0); [discriminate |].
  intros H. now rewrite IH.
Qed.

Lemma dict_has_app {A} k (a b : list (string * A)) :
  dict_has k (a ++ b) = dict_has k a || dict_has k b.
Proof.
  unfold dict_has. induction a as [| [k0 v0] a IH]; simpl.
  - now destruct (dict_get k b).
  - destruct (String.eqb k k0); [reflexivity | exact IH].
Qed.

Lemma display_input_acc d : forall acc,
  unique_keys d = true ->
  (forall k, dict_has k d = true -> dict_has k acc = false) ->
  fold_left (fun display kv =>
               dict_set (fst kv) (LoggingHook.shown (snd kv)) display) d acc
  = acc ++ map (fun kv => (fst kv, LoggingHook.shown (snd kv))) d.
Proof.
  induction d as [| [k v] d IH]; intros acc U Fr; simpl.
  - now rewrite app_nil_r.
  - simpl in U. apply andb_prop in U. destruct U as [Uk U].
    apply negb_true_iff in Uk.
    assert (A : dict_has k acc = false).
    { apply Fr. unfold dict_has. simpl. now rewrite String.eqb_refl. }
    rewrite (dict_set_absent _ _ _ A).
    rewrite IH; [now rewrite <- app_assoc | exact U |].
    intros k' H. rewrite dict_has_app.
    assert (N : String.eqb k' k = false).
    { destruct (String.eqb k' k) eqn:E; [| reflexivity].
      apply String.eqb_eq in E. subst k'. congruence. }
    rewrite Fr.
    + unfold dict_has. simpl. now rewrite N.
    + unfold dict_has in *. simpl. now rewrite N.
Qed.

Lemma dict_get_map_shown k d :
  dict_get k (map (fun kv => (fst kv, LoggingHook.shown (snd kv))) d)
  = option_map LoggingHook.shown (dict_get k d).
Proof.
  induction d as [| [k0 v0] d IH]; simpl; [reflexivity |].
  destruct (String.eqb k k0); [reflexivity | exact IH].
Qed.


(** ** Closed runs of the further properties *)

Lemma update_then_load_witness :
  update frozen_clock insertion_order [("hooks", VList [entry "A"])] ["p1"]
    (fresh 0)
  = (Ok (collection (frozen_clock 0) (frozen_clock 3) [VStr "p1"]
           [("hooks", VList [entry "A"])]),
     holding (collection (frozen_clock 0) (frozen_clock 3) [VStr "p1"]
                [("hooks", VList [entry "A"])]) 4)
  /\ load frozen_clock
       (holding (collection (frozen_clock 0) (frozen_clock 3) [VStr "p1"]
                   [("hooks", VList [entry "A"])]) 4)
     = (Ok (VDict (collection (frozen_clock 0) (frozen_clock 3) [VStr "p1"]
                     [("hooks", VList [entry "A"])])),
        holding (collection (frozen_clock 0) (frozen_clock 3) [VStr "p1"]
                   [("hooks", VList [entry "A"])]) 4).
Proof.
  split; [vm_compute; reflexivity |].
  refine (update_then_load frozen_clock insertion_order
            [("hooks", VList [entry "A"])] ["p1"] (fresh 0)
            (collection (frozen_clock 0) (frozen_clock 3) [VStr "p1"]
               [("hooks", VList [entry "A"])])
            (holding (collection (frozen_clock 0) (frozen_clock 3)
                        [VStr "p1"] [("hooks", VList [entry "A"])]) 4)
            _); vm_compute; reflexivity.
Defined.

Lemma update_failure_keeps_file_witness :
  update frozen_clock insertion_order
    [("topics", VDict [("primary", VStr "x")])] []
    (holding (collection "2024-12-31" "2024-12-31" []
                [("topics", VList [VStr "x"; VStr "y"])]) 0)
  = (Raise AttributeError,
     holding (collection "2024-12-31" "2024-12-31" []
                [("topics", VList [VStr "x"; VStr "y"])]) 1)
  /\ file (holding (collection "2024-12-31" "2024-12-31" []
                      [("topics", VList [VStr "x"; VStr "y"])]) 1)
     = file (holding (collection "2024-12-31" "2024-12-31" []
                        [("topics", VList [VStr "x"; VStr "y"])]) 0).
Proof.
  split; [vm_compute; reflexivity |].
  refine (update_failure_keeps_file frozen_clock insertion_order
            [("topics", VDict [("primary", VStr "x")])] []
            (holding (collection "2024-12-31" "2024-12-31" []
                        [("topics", VList [VStr "x"; VStr "y"])]) 0)
            AttributeError
            (holding (collection "2024-12-31" "2024-12-31" []
                        [("topics", VList [VStr "x"; VStr "y"])]) 1)
            _); vm_compute; reflexivity.
Defined.

Lemma update_root_frame_witness :
  dict_get "created_at"
    (collection "2024-12-31" (frozen_clock 1) [VStr "p1"]
       [("tone", VStr "warm")])
  = dict_get "created_at"
      (collection "2024-12-31" "2024-12-31" [] []).
Proof.
  refine (update_root_frame frozen_clock insertion_order
            [("tone", VStr "warm")] ["p1"]
            (holding (collection "2024-12-31" "2024-12-31" [] []) 0)
            (collection "2024-12-31" "2024-12-31" [] [])
            (holding (collection "2024-12-31" "2024-12-31" [] []) 0)
            (collection "2024-12-31" (frozen_clock 1) [VStr "p1"]
               [("tone", VStr "warm")])
            (holding (collection "2024-12-31" (frozen_clock 1) [VStr "p1"]
                        [("tone", VStr "warm")]) 2)
            _ _ "created_at" _);
    try (vm_compute; reflexivity).
  unfold update_writes. simpl.
  intros [H | [H | [H | H]]]; try discriminate H. exact H.
Defined.

Lemma merge_appends_in_order_witness :
  exists ext,
    VList [entry "A"; entry "B"; VStr "s"] = VList ([entry "A"] ++ ext)
    /\ subseq ext [entry "B"; entry "A"; VStr "s"; entry "B"]
    /\ List.length [entry "A"] <= List.length ([entry "A"] ++ ext)
       <= List.length [entry "A"]
          + List.length [entry "B"; entry "A"; VStr "s"; entry "B"].
Proof.
  refine (merge_appends_in_order [entry "A"]
            [entry "B"; entry "A"; VStr "s"; entry "B"]
            (VList [entry "A"; entry "B"; VStr "s"]) _).
  vm_compute. reflexivity.
Defined.

Lemma merge_covers_incoming_witness :
  set_mem (example_of [("example", VStr "A")])
          (entry_keys [entry "A"; entry "B"; VStr "s"]) = true.
Proof.
  refine (merge_covers_incoming [entry "A"]
            [entry "B"; entry "A"; VStr "s"]
            [entry "A"; entry "B"; VStr "s"] _ _
            (VDict [("example", VStr "A")]) _).
  - repeat constructor.
  - vm_compute. reflexivity.
  - simpl. auto.
Defined.

Lemma update_list_over_scalar_witness :
  exists e w',
    update frozen_clock insertion_order [("hooks", VList [])] []
      (holding (collection "2024-12-31" "2024-12-31" []
                  [("hooks", VNone)]) 0)
    = (Raise e, w')
    /\ file w'
       = file (holding (collection "2024-12-31" "2024-12-31" []
                          [("hooks", VNone)]) 0).
Proof.
  refine (update_list_over_scalar frozen_clock insertion_order
            [("hooks", VList [])] []
            (holding (collection "2024-12-31" "2024-12-31" []
                        [("hooks", VNone)]) 0)
            (collection "2024-12-31" "2024-12-31" [] [("hooks", VNone)])
            (holding (collection "2024-12-31" "2024-12-31" []
                        [("hooks", VNone)]) 0)
            [("hooks", VNone)] "hooks" VNone [] _ _ _ _ _ _);
    vm_compute; reflexivity.
Defined.

Lemma summary_reads_five_topics_witness :
  summarize no_render
    (VDict (collection "2024-12-31" "2024-12-31" []
              [("topics", VList [VStr "a"; VStr "b"; VStr "c"; VStr "d";
                                 VStr "e"; VInt 6])]))
  = summarize no_render
      (VDict (dict_set "patterns"
                (VDict (dict_set "topics"
                          (VList (firstn 5 [VStr "a"; VStr "b"; VStr "c";
                                            VStr "d"; VStr "e"; VInt 6]))
                          [("topics",
                            VList [VStr "a"; VStr "b"; VStr "c"; VStr "d";
                                   VStr "e"; VInt 6])]))
                (collection "2024-12-31" "2024-12-31" []
                   [("topics", VList [VStr "a"; VStr "b"; VStr "c";
                                      VStr "d"; VStr "e"; VInt 6])]))).
Proof.
  refine (summary_reads_five_topics no_render
            (collection "2024-12-31" "2024-12-31" []
               [("topics", VList [VStr "a"; VStr "b"; VStr "c"; VStr "d";
                                  VStr "e"; VInt 6])])
            [("topics", VList [VStr "a"; VStr "b"; VStr "c"; VStr "d";
                               VStr "e"; VInt 6])]
            [VStr "a"; VStr "b"; VStr "c"; VStr "d"; VStr "e"; VInt 6]
            _ _); vm_compute; reflexivity.
Defined.

Lemma update_makes_patterns_visible_witness :
  fst (get_summary frozen_clock no_render
         (holding (collection (frozen_clock 0) (frozen_clock 3) []
                     [("tone", VDict [("formality", VStr "casual")])]) 4))
  <> Ok None
  /\ exists r p',
       PostWriter.load_patterns "patterns/patterns.json"
         (holding (collection (frozen_clock 0) (frozen_clock 3) []
                     [("tone", VDict [("formality", VStr "casual")])]) 4)
       = (Ok r,
          holding (collection (frozen_clock 0) (frozen_clock 3) []
                     [("tone", VDict [("formality", VStr "casual")])]) 4)
       /\ dict_get "success" r = Some (VBool true)
       /\ dict_get "patterns"
            (collection (frozen_clock 0) (frozen_clock 3) []
               [("tone", VDict [("formality", VStr "casual")])])
          = Some (VDict p')
       /\ dict_get "patterns" r = Some (VDict p').
Proof.
  refine (update_makes_patterns_visible frozen_clock insertion_order
            no_render
            [("tone", VDict [("formality", VStr "casual")])] [] (fresh 0)
            (collection (frozen_clock 0) (frozen_clock 3) []
               [("tone", VDict [("formality", VStr "casual")])])
            (holding (collection (frozen_clock 0) (frozen_clock 3) []
                        [("tone", VDict [("formality", VStr "casual")])]) 4)
            "patterns/patterns.json" _ _ _);
    try (vm_compute; reflexivity).
  discriminate.
Defined.

Lemma save_patterns_overwrites_witness :
  exists r w' c' p',
    PostWriter.save_patterns frozen_clock "patterns/patterns.json"
      [("hooks", VList [entry "B"])]
      (holding (collection "2024-12-31" "2024-12-31" [VStr "a.md"]
                  [("hooks", VList [entry "A"]); ("tone", VStr "warm")]) 0)
    = (Ok r, w')
    /\ file w' = Some (Document (VDict c'))
    /\ dict_get "patterns" c' = Some (VDict p')
    /\ (forall k,
          dict_get k p'
          = match dict_get k [("hooks", VList [entry "B"])] with
            | Some v => Some v
            | None => dict_get k [("hooks", VList [entry "A"]);
                                  ("tone", VStr "warm")]
            end)
    /\ (forall k, k <> "updated_at" -> k <> "patterns" ->
                  dict_get k c'
                  = dict_get k
                      (collection "2024-12-31" "2024-12-31" [VStr "a.md"]
                         [("hooks", VList [entry "A"]);
                          ("tone", VStr "warm")])).
Proof.
  refine (save_patterns_overwrites frozen_clock "patterns/patterns.json"
            [("hooks", VList [entry "B"])]
            (holding (collection "2024-12-31" "2024-12-31" [VStr "a.md"]
                        [("hooks", VList [entry "A"]);
                         ("tone", VStr "warm")]) 0)
            (collection "2024-12-31" "2024-12-31" [VStr "a.md"]
               [("hooks", VList [entry "A"]); ("tone", VStr "warm")])
            [("hooks", VList [entry "A"]); ("tone", VStr "warm")]
            _ _ _); vm_compute; reflexivity.
Defined.

Lemma save_patterns_on_missing_file_witness :
  exists r w' p',
    PostWriter.save_patterns frozen_clock "patterns/patterns.json"
      [("hooks", VList [entry "A"])] (fresh 0)
    = (Ok r, w')
    /\ file w' = Some (Document (VDict
                   [("updated_at", VStr (frozen_clock (ticks (fresh 0))));
                    ("patterns", VDict p')]))
    /\ forall k, dict_get k p' = dict_get k [("hooks", VList [entry "A"])].
Proof.
  refine (save_patterns_on_missing_file frozen_clock
            "patterns/patterns.json" [("hooks", VList [entry "A"])]
            (fresh 0) _ _); vm_compute; reflexivity.
Defined.

Lemma save_then_load_patterns_witness :
  exists r' p',
    PostWriter.load_patterns "patterns/patterns.json"
      (holding [("updated_at", VStr (frozen_clock 0));
                ("patterns", VDict [("hooks", VList [entry "A"])])] 1)
    = (Ok r',
       holding [("updated_at", VStr (frozen_clock 0));
                ("patterns", VDict [("hooks", VList [entry "A"])])] 1)
    /\ dict_get "success" r' = Some (VBool true)
    /\ dict_get "patterns" r' = Some (VDict p')
    /\ dict_get "updated_at" r'
       = Some (VStr (frozen_clock (ticks (fresh 0))))
    /\ forall k v,
         dict_get k [("hooks", VList [entry "A"])] = Some v ->
         dict_get k p' = Some v.
Proof.
  refine (save_then_load_patterns frozen_clock "patterns/patterns.json"
            [("hooks", VList [entry "A"])] (fresh 0)
            [("success", VBool true);
             ("file_path", VStr "patterns/patterns.json");
             ("message", VStr "Patterns saved to patterns/patterns.json")]
            (holding [("updated_at", VStr (frozen_clock 0));
                      ("patterns",
                       VDict [("hooks", VList [entry "A"])])] 1)
            _ _ _); try (vm_compute; reflexivity).
  discriminate.
Defined.

Lemma format_ignores_padding_witness :
  CodeFormatter.format_code_snippet "output/code_snippet.md"
    (String.append "  " (String.append "x = 1" " "))
    "python" (Some "Demo")
  = CodeFormatter.format_code_snippet "output/code_snippet.md"
      "x = 1" "python" (Some "Demo").
Proof.
  refine (format_ignores_padding "output/code_snippet.md" "  " "x = 1" " "
            "python" (Some "Demo") _ _); reflexivity.
Defined.


End PatternStore.
